(** * Mantis file_plugins: registry, dispatcher, load orchestrator, resampler

    A shallow embedding of [mantis_xray/file_plugins/__init__.py].

    - Python exceptions are values of [exn]; a computation that may raise
      has type [res A].
    - numpy / scipy are external collaborators.  Their scalar type and the
      functions whose numerical behaviour the module does not decide
      ([linspace], [griddata], minimum, maximum) are the interface [NumLib].
    - A numpy 3-d array is a [cube]: its shape and its cells as nested
      lists indexed (row, column, slice).
    - A plugin is a module object: the record [Plugin.t].  The attribute
      [read] is optional because discovery tests for it.
    - [print] and logger calls are observability only and are left out. *)

From Stdlib Require Import ZArith Lia Ascii String Sorted.
From stdpp Require Import base option list strings gmap.

Local Open Scope string_scope.
Local Open Scope nat_scope.
Local Open Scope list_scope.

(** ** Exceptions and results *)

Inductive exn : Type :=
| ValueError (msg : string)
| IndexError (msg : string)
| UnboundLocalError (var : string)
| AttributeError (attr : string)
| ImportError (msg : string)
| PluginError (msg : string).

Inductive res (A : Type) : Type :=
| Ok (a : A)
| Raise (e : exn).
Arguments Ok {A} a.
Arguments Raise {A} e.

#[export] Instance res_ret : MRet res := fun _ a => Ok a.
#[export] Instance res_bind : MBind res :=
  fun _ _ f m => match m with Ok a => f a | Raise e => Raise e end.

Definition is_ok {A} (r : res A) : bool :=
  match r with Ok _ => true | Raise _ => false end.

(** A local variable that is only assigned on some paths. *)
Definition local {A} (name : string) (v : option A) : res A :=
  match v with
  | Some a => Ok a
  | None => Raise (UnboundLocalError name)
  end.

(** ** [os.path.splitext] (posixpath: sep "/", no altsep, extsep ".") *)

Fixpoint rfind_from (c : ascii) (p : list ascii) (i last : Z) : Z :=
  match p with
  | [] => last
  | a :: p' => rfind_from c p' (i + 1)%Z (if Ascii.eqb a c then i else last)
  end.

(** [p.rfind(c)]: index of the last occurrence, -1 when there is none. *)
Definition rfind (c : ascii) (p : list ascii) : Z := rfind_from c p 0%Z (-1)%Z.

(** The [while filenameIndex < dotIndex] loop over [p[sepIndex+1 : dotIndex]]:
    true as soon as a character that is not a dot is met. *)
Fixpoint has_non_dot (between : list ascii) : bool :=
  match between with
  | [] => false
  | a :: rest => if Ascii.eqb a "."%char then has_non_dot rest else true
  end.

Definition splitext (p : string) : string * string :=
  let l := list_ascii_of_string p in
  let sepIndex := rfind "/"%char l in
  let dotIndex := rfind "."%char l in
  if (sepIndex <? dotIndex)%Z then
    let filenameIndex := Z.to_nat (sepIndex + 1) in
    let between := take (Z.to_nat dotIndex - filenameIndex) (drop filenameIndex l) in
    if has_non_dot between then
      (string_of_list_ascii (take (Z.to_nat dotIndex) l),
       string_of_list_ascii (drop (Z.to_nat dotIndex) l))
    else (p, "")
  else (p, "").

(** ** The numerical library *)

(** [method=] argument of [scipy.interpolate.griddata]. *)
Inductive method : Type := Nearest | Cubic.

(** What the module takes from numpy and scipy.  [griddata pts vals xi m]
    receives the source points, one value per source point, the query
    points (the target grid, flattened row-major) and the method; it
    returns one value per query point.  With method 'nearest' it succeeds
    on every non-empty set of points with as many values. *)
Class NumLib (R : Type) : Type := {
  of_Z : Z → R;
  rmin : R → R → R;
  rmax : R → R → R;
  linspace : R → R → nat → list R;
  griddata : list (R * R) → list R → list (R * R) → method → res (list R);
  linspace_length : ∀ a b n, length (linspace a b n) = n;
  griddata_length : ∀ pts vals xi m out,
    griddata pts vals xi m = Ok out → length out = length xi;
  griddata_nearest : ∀ pts vals xi,
    pts ≠ [] → length pts = length vals → is_ok (griddata pts vals xi Nearest) = true
}.

(** ** Arrays *)

(** A 3-d array, axes (row, column, slice). *)
Record cube (A : Type) : Type := Cube {
  nrow : nat;
  ncol : nat;
  nchan : nat;
  cells : list (list (list A))
}.
Arguments Cube {A} nrow ncol nchan cells.
Arguments nrow {A} c.
Arguments ncol {A} c.
Arguments nchan {A} c.
Arguments cells {A} c.

(** [absdata.shape] *)
Definition shape {A} (c : cube A) : nat * nat * nat := (nrow c, ncol c, nchan c).

(** The cells agree with the shape (always so for a numpy array). *)
Definition cube_wf {A} (c : cube A) : Prop :=
  length (cells c) = nrow c ∧
  Forall (λ row, length row = ncol c ∧
                 Forall (λ px, length px = nchan c) row) (cells c).

(** [c[r, k, e]] *)
Definition cell {A} (c : cube A) (r k e : nat) : option A :=
  row ← cells c !! r; px ← row !! k; px !! e.

(** A coordinate descriptor: 1-d, or 2-d with one column per slice. *)
Inductive coords (A : Type) : Type :=
| Arr1 (v : list A)
| Arr2 (n m : nat) (rows : list (list A)).
Arguments Arr1 {A} v.
Arguments Arr2 {A} n m rows.

Definition ndim {A} (d : coords A) : nat :=
  match d with Arr1 _ => 1 | Arr2 _ _ _ => 2 end.

(** [len(d)] *)
Definition coords_len {A} (d : coords A) : nat :=
  match d with Arr1 v => length v | Arr2 n _ _ => n end.

(** [reshape(r, k)] of a flat array. *)
Fixpoint chunks {A} (r k : nat) (l : list A) : list (list A) :=
  match r with
  | 0 => []
  | S r' => take k l :: chunks r' k (drop k l)
  end.

Definition reshape {A} (l : list A) (r k : nat) : res (list (list A)) :=
  if length l =? r * k then Ok (chunks r k l)
  else Raise (ValueError "cannot reshape array").

(** [numpy.meshgrid(x, y)] as the list of pairs [(xx[j,i], yy[j,i])] in
    row-major order; the two matrices have shape [(len y, len x)]. *)
Definition meshgrid {A} (x y : list A) : list (A * A) :=
  flat_map (λ yj, map (λ xi, (xi, yj)) x) y.

(** [d[:, i]] of a 2-d array of shape (n, m). *)
Definition column {A} (m : nat) (rows : list (list A)) (i : nat) : res (list A) :=
  if i <? m then
    match mapM (λ row : list A, row !! i) rows with
    | Some c => Ok c
    | None => Raise (IndexError "index out of bounds")
    end
  else Raise (IndexError "index out of bounds").

Section Numpy.
Context {R : Type} `{!NumLib R}.

(** [numpy.arange(n)] *)
Definition arange (n : nat) : list R := map (λ i, of_Z (Z.of_nat i)) (seq 0 n).

(** [v.min()], [v.max()]: ValueError on an empty array. *)
Definition amin (v : list R) : res R :=
  match v with
  | [] => Raise (ValueError "zero-size array to reduction operation minimum")
  | a :: v' => Ok (foldl rmin a v')
  end.

Definition amax (v : list R) : res R :=
  match v with
  | [] => Raise (ValueError "zero-size array to reduction operation maximum")
  | a :: v' => Ok (foldl rmax a v')
  end.

Definition min_max (v : list R) : res (R * R) :=
  lo ← amin v; hi ← amax v; Ok (lo, hi).

(** [numpy.zeros_like(c)] *)
Definition zeros_like (c : cube R) : cube R :=
  Cube (nrow c) (ncol c) (nchan c)
       (replicate (nrow c) (replicate (ncol c) (replicate (nchan c) (of_Z 0)))).

(** [numpy.pad(c, ((0,0),(0,k),(0,0)), mode='constant', constant_values=0)] *)
Definition pad_cols (c : cube R) (k : nat) : cube R :=
  Cube (nrow c) (ncol c + k) (nchan c)
       (map (λ row, row ++ replicate k (replicate (nchan c) (of_Z 0))) (cells c)).

(** [numpy.vstack((a, b))]: all axes but the first must agree. *)
Definition vstack (a b : cube R) : res (cube R) :=
  if (ncol a =? ncol b) && (nchan a =? nchan b) then
    Ok (Cube (nrow a + nrow b) (ncol a) (nchan a) (cells a ++ cells b))
  else Raise (ValueError "all the input array dimensions except for the concatenation axis must match exactly").

(** [c[:, :, i].ravel()] *)
Definition slice_ravel (c : cube R) (i : nat) : list R :=
  flat_map (λ row, omap (λ px : list R, px !! i) row) (cells c).

(** [c[:, :, i].T.reshape(-1)] *)
Definition slice_T_flat (c : cube R) (i : nat) : list R :=
  flat_map (λ k, omap (λ row : list (list R), px ← row !! k; px !! i) (cells c))
           (seq 0 (ncol c)).

(** Rows of pixels with slice [i] of every pixel taken from the matrix [m]. *)
Definition assign (i : nat) (cs : list (list (list R))) (m : list (list R))
    : list (list (list R)) :=
  zip_with (λ row mrow, zip_with (λ px v, <[i:=v]> px) row mrow) cs m.

(** [c[:, :, i] = m] for a matrix [m] of shape [(nrow c, ncol c)]. *)
Definition set_slice (c : cube R) (i : nat) (m : list (list R)) : cube R :=
  Cube (nrow c) (ncol c) (nchan c) (assign i (cells c) m).

(** The points of [griddata((x, y), ...)]: the two arrays must have the
    same length. *)
Definition coords_from_arrays (x y : list R) : res (list (R * R)) :=
  if length x =? length y then Ok (zip x y)
  else Raise (ValueError "shape mismatch: objects cannot be broadcast to a single shape").
End Numpy.

(** ** Grid resampler *)

Section Resampler.
Context {R : Type} `{!NumLib R}.

(** The extent of a descriptor used for the shared grid: of the whole
    array when 1-d, of column 0 when 2-d. *)
Definition extent (d : coords R) : res (R * R) :=
  match d with
  | Arr1 v => min_max v
  | Arr2 _ m rows => c ← column m rows 0; min_max c
  end.

(** The per-slice assignment of [x_min_i, x_max_i] (and of the y pair):
    executed only for a 2-d descriptor, otherwise the local keeps what it
    had, which is nothing on the first iteration. *)
Definition extent_i (d : coords R) (i : nat) (prev : option (R * R)) : res (option (R * R)) :=
  match d with
  | Arr2 _ m rows => c ← column m rows i; e ← min_max c; Ok (Some e)
  | Arr1 _ => Ok prev
  end.

(** Loop of the 1-d branch of [interpolate_absdata_flat]: every slice is
    resampled from the points [(x_dist, y_dist)] onto the shared grid
    [(xx, yy)] with method 'nearest'. *)
Fixpoint resample_shared (absdata : cube R) (x_dist y_dist : list R)
    (xx_yy : list (R * R)) (idx : list nat) (absdata_dist_corr : cube R) : res (cube R) :=
  match idx with
  | [] => Ok absdata_dist_corr
  | i :: rest =>
      let values := slice_T_flat absdata i in
      pts ← coords_from_arrays x_dist y_dist;
      out ← griddata pts values xx_yy Nearest;
      m ← reshape out (nrow absdata) (ncol absdata);
      resample_shared absdata x_dist y_dist xx_yy rest (set_slice absdata_dist_corr i m)
  end.

(** Loop of the 1-d branch of [interpolate_absdata]: source points are the
    uniform grid, query points the mesh of the descriptors, method 'cubic'. *)
Fixpoint resample_mesh (absdata : cube R) (points xx_yy_new : list (R * R))
    (idx : list nat) (absdata_dist_corr : cube R) : res (cube R) :=
  match idx with
  | [] => Ok absdata_dist_corr
  | i :: rest =>
      let values := slice_ravel absdata i in
      out ← griddata points values xx_yy_new Cubic;
      m ← reshape out (nrow absdata) (ncol absdata);
      resample_mesh absdata points xx_yy_new rest (set_slice absdata_dist_corr i m)
  end.

(** Loop of the 2-d branch, shared by both resamplers.  [points] is the
    local variable passed to [griddata] as source points: [points] in
    [interpolate_absdata], [original_points] in [interpolate_absdata_flat],
    with [None] when that local has not been assigned. *)
Fixpoint resample_per_slice (absdata : cube R) (x_dist y_dist : coords R)
    (points_name : string) (points : option (list (R * R)))
    (idx : list nat) (x_ext y_ext : option (R * R)) (absdata_dist_corr : cube R) : res (cube R) :=
  match idx with
  | [] => Ok absdata_dist_corr
  | i :: rest =>
      x_ext ← extent_i x_dist i x_ext;
      y_ext ← extent_i y_dist i y_ext;
      '(x_min_i, x_max_i) ← local "x_min_i" x_ext;
      let x_i := linspace x_min_i x_max_i (nrow absdata) in
      '(y_min_i, y_max_i) ← local "y_min_i" y_ext;
      let y_i := linspace y_min_i y_max_i (ncol absdata) in
      let xx_yy_new := meshgrid x_i y_i in
      let values := slice_ravel absdata i in
      pts ← local points_name points;
      out ← griddata pts values xx_yy_new Cubic;
      m ← reshape out (nrow absdata) (ncol absdata);
      resample_per_slice absdata x_dist y_dist points_name points rest x_ext y_ext
                         (set_slice absdata_dist_corr i m)
  end.

(** The uniform grid [(xx, yy)] of lines 170-172. *)
Definition shared_grid (absdata : cube R) (x_dist y_dist : coords R) : res (list (R * R)) :=
  '(x_min, x_max) ← extent x_dist;
  '(y_min, y_max) ← extent y_dist;
  let x := linspace x_min x_max (nrow absdata) in
  let y := linspace y_min y_max (ncol absdata) in
  Ok (meshgrid x y).

Definition interpolate_absdata (absdata : cube R) (x_dist y_dist : coords R) : res (cube R) :=
  let absdata_dist_corr := zeros_like absdata in
  points ← shared_grid absdata x_dist y_dist;
  match x_dist, y_dist with
  | Arr1 xd, Arr1 yd =>
      resample_mesh absdata points (meshgrid xd yd)
                    (seq 0 (nchan absdata)) absdata_dist_corr
  | _, _ =>
      resample_per_slice absdata x_dist y_dist "points" (Some points)
                         (seq 0 (nchan absdata)) None None absdata_dist_corr
  end.

Definition interpolate_absdata_flat (absdata : cube R) (x_dist y_dist : coords R)
    (flat : bool) : res (cube R) :=
  let absdata_dist_corr := zeros_like absdata in
  xx_yy ← shared_grid absdata x_dist y_dist;
  match x_dist, y_dist with
  | Arr1 xd, Arr1 yd =>
      _ ← (if flat then
             xx_new ← reshape xd (nrow absdata) (ncol absdata);
             yy_new ← reshape yd (nrow absdata) (ncol absdata);
             Ok tt
           else Ok tt);
      resample_shared absdata xd yd xx_yy (seq 0 (nchan absdata)) absdata_dist_corr
  | _, _ =>
      (* [original_points] is assigned in the 1-d branch only *)
      resample_per_slice absdata x_dist y_dist "original_points" None
                         (seq 0 (nchan absdata)) None None absdata_dist_corr
  end.
End Resampler.

(** ** Stack objects and plugins *)

(** Sub-selectors, the options blob and the file structure handle are
    opaque to this module. *)
Definition selector : Type := nat * nat.
Definition json_t : Type := string.
Definition struct_handle : Type := string.

(** The attributes of a [data_stack.data] object that [load] touches. *)
Record stack (R : Type) : Type := Stack {
  data_struct : struct_handle;
  absdata : cube R;
  x_dist : coords R;
  y_dist : coords R;
  n_cols : nat;
  n_rows : nat;
  x_dist_instr : coords R;
  y_dist_instr : coords R;
  absdata_interpolated : option (cube R)
}.
Arguments Stack {R}.
Arguments data_struct {R} s.
Arguments absdata {R} s.
Arguments x_dist {R} s.
Arguments y_dist {R} s.
Arguments n_cols {R} s.
Arguments n_rows {R} s.
Arguments x_dist_instr {R} s.
Arguments y_dist_instr {R} s.
Arguments absdata_interpolated {R} s.

Definition set_absdata {R} (s : stack R) (c : cube R) : stack R :=
  Stack (data_struct s) c (x_dist s) (y_dist s) (n_cols s) (n_rows s)
        (x_dist_instr s) (y_dist_instr s) (absdata_interpolated s).

Definition set_absdata_interpolated {R} (s : stack R) (c : cube R) : stack R :=
  Stack (data_struct s) (absdata s) (x_dist s) (y_dist s) (n_cols s) (n_rows s)
        (x_dist_instr s) (y_dist_instr s) (Some c).

(** [plugin.read(filename, stack_object, selection, json)]: mutates the
    stack object it is given and may raise. *)
Definition reader (R : Type) : Type :=
  string → stack R → option selector → option json_t → res unit * stack R.

(** A plugin module.  [title], [extension], the type lists and [identify]
    are what every plugin defines; [identify] returns a boolean.  [read]
    is [None] for a module of the directory that has no such function. *)
Module Plugin.
Record t (R : Type) : Type := Make {
  title : string;
  extension : list string;
  read_types : list string;
  write_types : list string;
  identify : string → bool;
  read : option (reader R)
}.
Arguments Make {R}.
Arguments title {R} _.
Arguments extension {R} _.
Arguments read_types {R} _.
Arguments write_types {R} _.
Arguments identify {R} _ _.
Arguments read {R} _.
End Plugin.

(** ** Discovery (module level, lines 55-72) *)

(** What executing one candidate module gives: the module object, or the
    exception the [try] body raised. *)
Inductive exec_result (R : Type) : Type :=
| Executed (module : Plugin.t R)
| Failed (e : exn).
Arguments Executed {R} module.
Arguments Failed {R} e.

(** ['read' in dir(module)] *)
Definition has_read {R} (module : Plugin.t R) : bool :=
  match Plugin.read module with Some _ => true | None => false end.

(** The [for m in pkgutil.iter_modules(...)] loop; [plugins] is the list
    built so far.  Only ImportError is caught. *)
Fixpoint discover {R} (candidates : list (exec_result R)) (plugins : list (Plugin.t R))
    : res (list (Plugin.t R)) :=
  match candidates with
  | [] => Ok plugins
  | m :: rest =>
      match m with
      | Executed module =>
          if has_read module then discover rest (plugins ++ [module])
          else discover rest plugins
      | Failed (ImportError _) => discover rest plugins
      | Failed e => Raise e
      end
  end.

(** ** Dispatcher *)

(** How the [for] loop of [identify] ends. *)
Inductive loop_exit (R : Type) : Type :=
| Returned (P : Plugin.t R)
| Broke
| Exhausted.
Arguments Returned {R} P.
Arguments Broke {R}.
Arguments Exhausted {R}.

(** ['*'+ext in P.extension] *)
Definition claims_ext {R} (P : Plugin.t R) (ext : string) : bool :=
  bool_decide (("*" +:+ ext) ∈ Plugin.extension P).

(** The loop over [enumerate(plugins)], from index [i] on, with the list
    [flag] and the indices probed so far. *)
Fixpoint identify_loop {R} (filename ext : string) (plugins : list (Plugin.t R))
    (i : nat) (flag : list bool) (probed : list nat) : res (loop_exit R * list nat) :=
  match plugins with
  | [] => Ok (Exhausted, probed)
  | P :: rest =>
      if claims_ext P ext then
        if Plugin.identify P filename then Ok (Returned P, probed ++ [i])
        else
          match flag !! i with
          | None => Raise (IndexError "list index out of range")
          | Some true =>
              identify_loop filename ext rest (S i) (<[i:=false]> flag) (probed ++ [i])
          | Some false => Ok (Broke, probed ++ [i])
          end
      else identify_loop filename ext rest (S i) flag probed
  end.

(** The run of [identify]: how the loop ended and which plugins were probed. *)
Definition identify_run {R} (plugins : list (Plugin.t R)) (filename : string)
    : res (loop_exit R * list nat) :=
  let ext := (splitext filename).2 in
  let flag := replicate (length plugins) true in
  identify_loop filename ext plugins 0 flag [].

Definition identify {R} (plugins : list (Plugin.t R)) (filename : string)
    : res (option (Plugin.t R)) :=
  '(exit, _) ← identify_run plugins filename;
  match exit with
  | Returned P => Ok (Some P)
  | Broke | Exhausted => Ok None
  end.

(** ** Load orchestrator *)

(** Which object a [plugin.read] call was given. *)
Inductive target : Type := StackObject | TempStack.

(** One call of [plugin.read]. *)
Record read_call : Type := ReadCall {
  rc_target : target;
  rc_selection : option selector;
  rc_json : option json_t
}.

(** The outcome of a [load] call: what it returned or raised, the state of
    [stack_object] when it ended, and the reads it made. *)
Record load_run (R : Type) : Type := LoadRun {
  outcome : res unit;
  stack_after : stack R;
  reads : list read_call
}.
Arguments LoadRun {R}.
Arguments outcome {R} l.
Arguments stack_after {R} l.
Arguments reads {R} l.

Section Load.
Context {R : Type} `{!NumLib R}.

(** [data_stack.data(data_struct)]: the constructor of a fresh stack
    object, code of the application outside this module. *)
Variable data_stack_data : struct_handle → stack R.

(** Lines 227-231: reconcile the column counts, then append the rows.
    Gives the new [full_stack] and the new [temp_stack.absdata]. *)
Definition stitch (full_stack temp_absdata : cube R) : res (cube R * cube R) :=
  let '(full_stack, temp_absdata) :=
    if ncol temp_absdata <? ncol full_stack then
      (full_stack, pad_cols temp_absdata (ncol full_stack - ncol temp_absdata))
    else if ncol full_stack <? ncol temp_absdata then
      (pad_cols full_stack (ncol temp_absdata - ncol full_stack), temp_absdata)
    else (full_stack, temp_absdata) in
  full_stack ← vstack full_stack temp_absdata;
  Ok (full_stack, temp_absdata).

(** The loop [for s in selection[1:]]. *)
Fixpoint merge_selections (rd : reader R) (filename : string) (rest : list selector)
    (full_stack : cube R) (temp_stack : stack R) (log : list read_call)
    : res (cube R) * list read_call :=
  match rest with
  | [] => (Ok full_stack, log)
  | s :: rest' =>
      let '(r, temp_stack) := rd filename temp_stack (Some s) None in
      let log := log ++ [ReadCall TempStack (Some s) None] in
      match r with
      | Raise e => (Raise e, log)
      | Ok _ =>
          match stitch full_stack (absdata temp_stack) with
          | Raise e => (Raise e, log)
          | Ok (full_stack, temp_absdata) =>
              merge_selections rd filename rest' full_stack
                               (set_absdata temp_stack temp_absdata) log
          end
      end
  end.

(** Lines 232-237: store the merged cube and re-index the coordinates. *)
Definition store_merged (stack_object : stack R) (full_stack : cube R) : stack R :=
  let x_dist := arange (nrow full_stack) in
  let y_dist := arange (ncol full_stack) in
  Stack (data_struct stack_object) full_stack (Arr1 x_dist) (Arr1 y_dist)
        (length x_dist) (length y_dist)
        (x_dist_instr stack_object) (y_dist_instr stack_object)
        (absdata_interpolated stack_object).

(** Lines 216-237: the three ways the cube is populated. *)
Definition populate (rd : reader R) (filename : string) (stack_object : stack R)
    (selection : option (list selector)) (json : option json_t) : load_run R :=
  match selection with
  | None =>
      let '(r, stack_object) := rd filename stack_object None json in
      LoadRun r stack_object [ReadCall StackObject None json]
  | Some [s] =>
      let '(r, stack_object) := rd filename stack_object (Some s) json in
      LoadRun r stack_object [ReadCall StackObject (Some s) json]
  | Some [] => LoadRun (Raise (IndexError "list index out of range")) stack_object []
  | Some (s0 :: rest) =>
      let '(r, stack_object) := rd filename stack_object (Some s0) json in
      let log := [ReadCall StackObject (Some s0) json] in
      match r with
      | Raise e => LoadRun (Raise e) stack_object log
      | Ok _ =>
          let temp_stack := data_stack_data (data_struct stack_object) in
          let full_stack := absdata stack_object in
          match merge_selections rd filename rest full_stack temp_stack log with
          | (Raise e, log) => LoadRun (Raise e) stack_object log
          | (Ok full_stack, log) =>
              LoadRun (Ok tt) (store_merged stack_object full_stack) log
          end
      end
  end.

(** Lines 238-239: resample and store the interpolated cube. *)
Definition resample (stack_object : stack R) : res unit * stack R :=
  match interpolate_absdata_flat (absdata stack_object) (x_dist_instr stack_object)
                                 (y_dist_instr stack_object) true with
  | Ok absdata_interpolated =>
      (Ok tt, set_absdata_interpolated stack_object absdata_interpolated)
  | Raise e => (Raise e, stack_object)
  end.

(** The body of [load] once the plugin is known. *)
Definition load_with (plugin : Plugin.t R) (filename : string) (stack_object : stack R)
    (selection : option (list selector)) (json : option json_t) : load_run R :=
  match Plugin.read plugin with
  | None => LoadRun (Raise (AttributeError "read")) stack_object []
  | Some rd =>
      let p := populate rd filename stack_object selection json in
      match outcome p with
      | Raise e => p
      | Ok _ =>
          let '(r, stack_object) := resample (stack_after p) in
          LoadRun r stack_object (reads p)
      end
  end.

(** Lines 210-211: the provider [load] works with, the dispatcher's when
    none is given. *)
Definition resolve (plugins : list (Plugin.t R)) (filename : string)
    (plugin : option (Plugin.t R)) : res (option (Plugin.t R)) :=
  match plugin with
  | None => identify plugins filename
  | Some P => Ok (Some P)
  end.

(** [load(filename, stack_object, plugin, selection, json)] over the
    registry [plugins].  Both [return None] and the bare [return] give
    [Ok tt]. *)
Definition load (plugins : list (Plugin.t R)) (filename : string) (stack_object : stack R)
    (plugin : option (Plugin.t R)) (selection : option (list selector))
    (json : option json_t) : load_run R :=
  match resolve plugins filename plugin with
  | Raise e => LoadRun (Raise e) stack_object []
  | Ok None => LoadRun (Ok tt) stack_object []
  | Ok (Some P) => load_with P filename stack_object selection json
  end.
End Load.

(** ** Structure inspection and saving (lines 242-264) *)

Section Inspect.
Context {R S D : Type}.

(** The attributes [GetFileStructure] and [write] of a plugin module,
    [None] when the module does not define them.  A structure is a value of
    [S], a data object a value of [D]. *)
Variable structure_attr : Plugin.t R → option (string → res (option S)).
Variable write_attr : Plugin.t R → option (string → D → string → res unit).

(** [GetFileStructure(filename, plugin)] over the registry [plugins]. *)
Definition GetFileStructure (plugins : list (Plugin.t R)) (filename : string)
    (plugin : option (Plugin.t R)) : res (option S) :=
  match resolve plugins filename plugin with
  | Raise e => Raise e
  | Ok None => Ok None
  | Ok (Some P) =>
      match structure_attr P with
      | None => Raise (AttributeError "GetFileStructure")
      | Some get_structure => get_structure filename
      end
  end.

(** [save(filename, data_object, data_type, plugin)]: no dispatch; the
    message printed first reads [plugin.title]. *)
Definition save (filename : string) (data_object : D) (data_type : string)
    (plugin : option (Plugin.t R)) : res unit :=
  match plugin with
  | None => Raise (AttributeError "title")
  | Some P =>
      match write_attr P with
      | None => Raise (AttributeError "write")
      | Some write => write filename data_object data_type
      end
  end.
End Inspect.

(** ** The dispatch policy in the words of the specification *)

(** Probe every extension-matching provider in registration order until one
    confirms: how the scan ends and the indices probed, from index [i] on. *)
Fixpoint probe_until_confirmed {R} (filename ext : string) (plugins : list (Plugin.t R))
    (i : nat) : loop_exit R * list nat :=
  match plugins with
  | [] => (Exhausted, [])
  | P :: rest =>
      if claims_ext P ext then
        if Plugin.identify P filename then (Returned P, [i])
        else
          let '(exit, probed) := probe_until_confirmed filename ext rest (S i) in
          (exit, i :: probed)
      else probe_until_confirmed filename ext rest (S i)
  end.

(** The first provider in registration order that claims the extension and
    whose probe confirms. *)
Definition first_confirming {R} (plugins : list (Plugin.t R)) (filename : string)
    : option (Plugin.t R) :=
  let ext := (splitext filename).2 in
  find (λ P, claims_ext P ext && Plugin.identify P filename) plugins.

Definition is_broke {R} (e : loop_exit R) : bool :=
  match e with Broke => true | _ => false end.

(** ** The registry in the words of the specification *)

(** A candidate enters the registry only if it was loaded and exposes
    [read]. *)
Definition registers {R} (m : exec_result R) : option (Plugin.t R) :=
  match m with
  | Executed module => if has_read module then Some module else None
  | Failed _ => None
  end.

Definition registered {R} (candidates : list (exec_result R)) : list (Plugin.t R) :=
  omap registers candidates.

(** A failure that is not the ImportError of a missing prerequisite. *)
Definition is_fatal {R} (m : exec_result R) : bool :=
  match m with
  | Failed (ImportError _) => false
  | Failed _ => true
  | Executed _ => false
  end.

(** ** Registry tables (module level, lines 96-111) *)

Definition actions : list string := ["read"; "write"].
Definition data_types : list string := ["spectrum"; "image"; "stack"; "results"].

(** A dict of dicts of lists, [d[a][t]]. *)
Definition table (X : Type) : Type := gmap string (gmap string (list X)).

(** [dict([a, dict([t, []] for t in data_types)] for a in actions)] *)
Definition empty_table {X} : table X :=
  list_to_map (map (λ a, (a, list_to_map (map (λ t, (t, @nil X)) data_types))) actions).

(** [d[a][t]]; [None] is the KeyError of a missing key. *)
Definition table_get {X} (d : table X) (a t : string) : option (list X) :=
  inner ← (d : gmap string (gmap string (list X))) !! a; inner !! t.

(** [d[a][t] = l]: the outer key must exist. *)
Definition table_set {X} (d : table X) (a t : string) (l : list X) : option (table X) :=
  inner ← (d : gmap string (gmap string (list X))) !! a;
  Some (<[a := <[t := l]> inner]> (d : gmap string (gmap string (list X)))).

(** [d[a][t].append(x)] *)
Definition table_append {X} (d : table X) (a t : string) (x : X) : option (table X) :=
  l ← table_get d a t; table_set d a t (l ++ [x]).

(** [getattr(P, name)] for the two type lists; [None] is AttributeError.
    The record [Plugin.t] carries both lists, so a registered module that
    lacks one of them, for which line 103 raises, is not represented: what
    is proved of [build_tables] is proved of the tables once built. *)
Definition getattr_types {R} (P : Plugin.t R) (name : string) : option (list string) :=
  if bool_decide (name = "read_types") then Some (Plugin.read_types P)
  else if bool_decide (name = "write_types") then Some (Plugin.write_types P)
  else None.

(** [sep.join(l)] *)
Fixpoint join (sep : string) (l : list string) : string :=
  match l with
  | [] => ""
  | x :: rest =>
      match rest with
      | [] => x
      | _ :: _ => x +:+ sep +:+ join sep rest
      end
  end.

(** [P.title+' ('+' '.join(P.extension)+')'] *)
Definition filter_entry {R} (P : Plugin.t R) : string :=
  Plugin.title P +:+ " (" +:+ join " " (Plugin.extension P) +:+ ")".

(** The three module-level tables. *)
Record tables (R : Type) : Type := Tables {
  supported_filters : table string;
  supported_plugins : table (Plugin.t R);
  filter_list : table string
}.
Arguments Tables {R}.
Arguments supported_filters {R} _.
Arguments supported_plugins {R} _.
Arguments filter_list {R} _.

(** A [for] loop whose body may raise. *)
Fixpoint for_each {A S} (body : A → S → option S) (l : list A) (s : S) : option S :=
  match l with
  | [] => Some s
  | a :: rest => s' ← body a s; for_each body rest s'
  end.

(** Lines 106-108: append the extensions not yet listed. *)
Definition add_filter (action data_type ext : string) (sf : table string)
    : option (table string) :=
  l ← table_get sf action data_type;
  if bool_decide (ext ∈ l) then Some sf
  else table_append sf action data_type ext.

(** Lines 103-108: the body of the innermost loop. *)
Definition register_type {R} (P : Plugin.t R) (action data_type : string)
    (tb : tables R) : option (tables R) :=
  types ← getattr_types P (action +:+ "_types");
  if bool_decide (data_type ∈ types) then
    fl ← table_append (filter_list tb) action data_type (filter_entry P);
    sp ← table_append (supported_plugins tb) action data_type P;
    sf ← for_each (add_filter action data_type) (Plugin.extension P) (supported_filters tb);
    Some (Tables sf sp fl)
  else Some tb.

(** Lines 100-108 *)
Definition register_plugin {R} (P : Plugin.t R) (tb : tables R) : option (tables R) :=
  for_each (λ action, for_each (λ data_type, register_type P action data_type) data_types)
           actions tb.

(** Lines 110-111 for one data type. *)
Definition finish_filter_list (sf : table string) (data_type : string) (fl : table string)
    : option (table string) :=
  exts ← table_get sf "read" data_type;
  old ← table_get fl "read" data_type;
  fl ← table_set fl "read" data_type
         (["Supported Formats (" +:+ join " " exts +:+ ")"] ++ old);
  table_append fl "read" data_type "All files (*.*)".

(** Lines 97-111: the tables built from the registry. *)
Definition build_tables {R} (plugins : list (Plugin.t R)) : option (tables R) :=
  tb ← for_each register_plugin plugins (Tables empty_table empty_table empty_table);
  fl ← for_each (finish_filter_list (supported_filters tb)) data_types (filter_list tb);
  Some (Tables (supported_filters tb) (supported_plugins tb) fl).

(** The plugins that declare [data_type] among their [action] types, in
    registration order. *)
Definition supports {R} (action data_type : string) (P : Plugin.t R) : bool :=
  match getattr_types P (action +:+ "_types") with
  | Some types => bool_decide (data_type ∈ types)
  | None => false
  end.

Definition supporting {R} (plugins : list (Plugin.t R)) (action data_type : string)
    : list (Plugin.t R) :=
  List.filter (supports action data_type) plugins.

(** The extensions of a list of plugins, each once, in order of first
    appearance. *)
Definition add_new (acc : list string) (ext : string) : list string :=
  if bool_decide (ext ∈ acc) then acc else acc ++ [ext].

Definition union_extensions {R} (plugins : list (Plugin.t R)) : list string :=
  foldl (λ acc P, foldl add_new acc (Plugin.extension P)) [] plugins.

(** The keys of the tables, and what the three tables hold under one key. *)
Definition keys : list (string * string) := list_prod actions data_types.

Definition view {R} (tb : tables R) (k : string * string)
    : option (list string) * option (list (Plugin.t R)) * option (list string) :=
  (table_get (supported_filters tb) k.1 k.2,
   table_get (supported_plugins tb) k.1 k.2,
   table_get (filter_list tb) k.1 k.2).

Definition holds {R} (tb : tables R) (k : string * string)
    (v : list string * list (Plugin.t R) * list string) : Prop :=
  view tb k = (Some v.1.1, Some v.1.2, Some v.2).

(** What registering [P] does to the three lists under key [k]. *)
Definition register_entry {R} (P : Plugin.t R) (k : string * string)
    (v : list string * list (Plugin.t R) * list string)
    : list string * list (Plugin.t R) * list string :=
  if supports k.1 k.2 P then
    (foldl add_new v.1.1 (Plugin.extension P), v.1.2 ++ [P], v.2 ++ [filter_entry P])
  else v.

(** ** A small integer instance of the numerical library, to run the model *)

Module ZLib.
Definition dist2 (p q : Z * Z) : Z :=
  ((p.1 - q.1) * (p.1 - q.1) + (p.2 - q.2) * (p.2 - q.2))%Z.

(** Value of the source point closest to [q], the first one on ties. *)
Fixpoint nearest_value (q best : Z * Z) (bv : Z) (pts : list (Z * Z)) (vals : list Z) : Z :=
  match pts, vals with
  | p :: pts', v :: vals' =>
      if (dist2 q p <? dist2 q best)%Z then nearest_value q p v pts' vals'
      else nearest_value q best bv pts' vals'
  | _, _ => bv
  end.

(** Both methods pick the nearest sample here: this agrees with
    method 'cubic' where every query point is a source point, and stands
    in for it elsewhere. *)
Definition griddata_Z (pts : list (Z * Z)) (vals : list Z) (xi : list (Z * Z))
    (m : method) : res (list Z) :=
  match pts, vals with
  | p :: pts', v :: vals' =>
      if length pts' =? length vals' then
        Ok (map (λ q, nearest_value q p v pts' vals') xi)
      else Raise (ValueError "different number of values and points")
  | _, _ => Raise (ValueError "different number of values and points")
  end.

Definition linspace_Z (a b : Z) (n : nat) : list Z :=
  map (λ i, (a + (b - a) * Z.of_nat i / Z.of_nat (n - 1))%Z) (seq 0 n).

#[global] Instance lib : NumLib Z.
Proof.
  refine {| of_Z := id; rmin := Z.min; rmax := Z.max;
            linspace := linspace_Z; griddata := griddata_Z |}.
  - intros a b n. unfold linspace_Z. by rewrite length_map, length_seq.
  - intros pts vals xi m out. unfold griddata_Z.
    destruct pts as [|p pts']; [done|]. destruct vals as [|v vals']; [done|].
    destruct (length pts' =? length vals'); [|done].
    intros [= <-]. by rewrite length_map.
  - intros pts vals xi Hne Hlen. unfold griddata_Z.
    destruct pts as [|p pts']; [done|]. destruct vals as [|v vals']; [done|].
    simpl in Hlen. injection Hlen as Hlen. rewrite Hlen, Nat.eqb_refl. done.
Defined.
End ZLib.

(** ** Sample plugins *)

Module Samples.
(** A reader that stores a given cube and instrument coordinates. *)
Definition store_reader (c : string → option selector → cube Z)
    (xi yi : coords Z) : reader Z :=
  λ filename s sel _,
    (Ok tt, Stack (data_struct s) (c filename sel) (x_dist s) (y_dist s)
                  (n_cols s) (n_rows s) xi yi (absdata_interpolated s)).

Definition one_px : cube Z := Cube 1 1 1 [[[7%Z]]].

(** Region (0,_) is 1x1x1, any other region is 1x2x1. *)
Definition regions (filename : string) (sel : option selector) : cube Z :=
  match sel with
  | Some (S _, _) => Cube 1 2 1 [[[8%Z]; [9%Z]]]
  | _ => one_px
  end.

(** Instrument coordinates for one pixel, and for the four pixels of the
    cube stitched from regions 0 and 1. *)
Definition rd : reader Z := store_reader regions (Arr1 [0%Z]) (Arr1 [0%Z]).
Definition rd4 : reader Z :=
  store_reader regions (Arr1 [0; 1; 0; 1]%Z) (Arr1 [0; 0; 1; 1]%Z).

(** Two providers claiming "*.hdf5": the first probes false, the second true. *)
Definition dataexch : Plugin.t Z :=
  Plugin.Make "DataExchange" ["*.hdf5"; "*.h5"] ["stack"] [] (λ _, false) (Some rd).
Definition nexus : Plugin.t Z :=
  Plugin.Make "NeXus" ["*.hdf5"] ["stack"] [] (λ _, true) (Some rd).
Definition tif : Plugin.t Z :=
  Plugin.Make "TIFF" ["*.tif"; "*.tiff"] ["image"; "stack"] ["image"] (λ _, true) (Some rd).
(** A module of the plugin directory without a [read] function. *)
Definition helper : Plugin.t Z :=
  Plugin.Make "helper" [] [] [] (λ _, false) None.

Definition nexus4 : Plugin.t Z :=
  Plugin.Make "NeXus" ["*.hdf5"] ["stack"] [] (λ _, true) (Some rd4).

(** A provider whose [read] fails. *)
Definition broken : Plugin.t Z :=
  Plugin.Make "Broken" ["*.xrm"] ["stack"] [] (λ _, true)
              (Some (λ _ s _ _, (Raise (PluginError "truncated file"), s))).

Definition registry : list (Plugin.t Z) := [dataexch; nexus; tif].

Definition empty_stack : stack Z :=
  Stack "h5" (Cube 0 0 0 []) (Arr1 []) (Arr1 []) 0 0 (Arr1 []) (Arr1 []) None.

Definition new_stack (h : struct_handle) : stack Z :=
  Stack h (Cube 0 0 0 []) (Arr1 []) (Arr1 []) 0 0 (Arr1 []) (Arr1 []) None.
End Samples.

(** ** The resampling policy per slice, in words *)

(** A descriptor without coordinates. *)
Definition no_coords {A} (d : coords A) : Prop :=
  match d with
  | Arr1 v => v = []
  | Arr2 _ _ rows => rows = []
  end.

(** The extent of the coordinates of slice [i]: of column [i] for a 2-d
    descriptor, of the whole array for a 1-d one. *)
Definition slice_extent {R} `{!NumLib R} (d : coords R) (i : nat) : res (R * R) :=
  match d with
  | Arr1 v => min_max v
  | Arr2 _ m rows => c ← column m rows i; min_max c
  end.

(** The uniform grid of slice [i], scaled to that slice's own extent. *)
Definition slice_grid {R} `{!NumLib R} (absdata : cube R) (x_dist y_dist : coords R)
    (i : nat) : res (list (R * R)) :=
  '(x_lo, x_hi) ← slice_extent x_dist i;
  '(y_lo, y_hi) ← slice_extent y_dist i;
  Ok (meshgrid (linspace x_lo x_hi (nrow absdata)) (linspace y_lo y_hi (ncol absdata))).

(** ** Stitching in the words of the specification *)

(** The cubes of the remaining selections stitched one after the other
    onto the accumulated cube. *)
Fixpoint stitch_all {R} `{!NumLib R} (full : cube R) (cubes : list (cube R))
    : res (cube R) :=
  match cubes with
  | [] => Ok full
  | B :: rest => '(M, _) ← stitch full B; stitch_all M rest
  end.

(** ** More samples *)

Module MoreSamples.
(** Region (0,_) has one slice, any other region two. *)
Definition regions (filename : string) (sel : option selector) : cube Z :=
  match sel with
  | Some (S _, _) => Cube 1 1 2 [[[8%Z; 9%Z]]]
  | _ => Samples.one_px
  end.

Definition rd : reader Z := Samples.store_reader regions (Arr1 [0%Z]) (Arr1 [0%Z]).

Definition uneven : Plugin.t Z :=
  Plugin.Make "Uneven" ["*.hdf5"] ["stack"] [] (λ _, true) (Some rd).

(** The structure of a file: the names of its regions; None for a file
    with a single data set. *)
Definition structure_attr (P : Plugin.t Z) : option (string → res (option (list string))) :=
  if bool_decide (Plugin.title P = "NeXus") then
    Some (λ _, Ok (Some ["region0"; "region1"]))
  else if bool_decide (Plugin.title P = "TIFF") then Some (λ _, Ok None)
  else None.


End MoreSamples.

(** * Properties *)

(** ** [os.path.splitext] on examples *)

Example splitext_hdf5 : splitext "/data/scan.hdf5" = ("/data/scan", ".hdf5").
Proof. reflexivity. Qed.

Example splitext_dotfile : splitext "/data/.hidden" = ("/data/.hidden", "").
Proof. reflexivity. Qed.

Example splitext_dir_dot : splitext "/da.ta/scan" = ("/da.ta/scan", "").
Proof. reflexivity. Qed.

(** ** Dispatcher *)

Section Dispatch.
Context {R : Type}.
Implicit Types (plugins : list (Plugin.t R)) (flag : list bool).

(** While every flag from index [i] on is still set, the loop does what
    the policy says and never takes the [break] branch. *)
Lemma identify_loop_scan filename ext plugins : ∀ i flag probed,
  (∀ j, i ≤ j → j < i + length plugins → flag !! j = Some true) →
  identify_loop filename ext plugins i flag probed =
    Ok ((probe_until_confirmed filename ext plugins i).1,
        probed ++ (probe_until_confirmed filename ext plugins i).2).
Proof.
  induction plugins as [|P rest IH]; intros i flag probed Hflag; simpl.
  - by rewrite app_nil_r.
  - destruct (claims_ext P ext).
    + destruct (Plugin.identify P filename); [done|].
      rewrite (Hflag i) by (simpl; lia).
      rewrite IH.
      * destruct (probe_until_confirmed filename ext rest (S i)) as [e t].
        simpl. by rewrite <- app_assoc.
      * intros j Hj1 Hj2. rewrite list_lookup_insert_ne by lia.
        apply Hflag; simpl; lia.
    + apply IH. intros j Hj1 Hj2. apply Hflag; simpl; lia.
Qed.

Lemma identify_run_scan plugins filename :
  identify_run plugins filename =
    Ok (probe_until_confirmed filename (splitext filename).2 plugins 0).
Proof.
  unfold identify_run. rewrite identify_loop_scan.
  - by destruct (probe_until_confirmed _ _ _ _).
  - intros j _ Hj. apply lookup_replicate_2. simpl in Hj. lia.
Qed.

Lemma scan_never_breaks filename ext plugins : ∀ i,
  is_broke (probe_until_confirmed filename ext plugins i).1 = false.
Proof.
  induction plugins as [|P rest IH]; intros i; simpl; [done|].
  destruct (claims_ext P ext); [|apply IH].
  destruct (Plugin.identify P filename); [done|].
  specialize (IH (S i)).
  by destruct (probe_until_confirmed filename ext rest (S i)).
Qed.

Lemma scan_result filename ext plugins : ∀ i,
  match (probe_until_confirmed filename ext plugins i).1 with
  | Returned P => find (λ P, claims_ext P ext && Plugin.identify P filename) plugins = Some P
  | _ => find (λ P, claims_ext P ext && Plugin.identify P filename) plugins = None
  end.
Proof.
  induction plugins as [|P rest IH]; intros i; simpl; [done|].
  destruct (claims_ext P ext); simpl; [|apply IH].
  destruct (Plugin.identify P filename); [done|].
  specialize (IH (S i)).
  by destruct (probe_until_confirmed filename ext rest (S i)).
Qed.

Lemma identify_find plugins filename :
  identify plugins filename = Ok (first_confirming plugins filename).
Proof.
  unfold identify, first_confirming. rewrite identify_run_scan.
  pose proof (scan_result filename (splitext filename).2 plugins 0) as H.
  destruct (probe_until_confirmed _ _ _ _) as [[P| |] t]; simpl in *; by rewrite H.
Qed.

Lemma scan_no_claim filename ext plugins : ∀ i,
  Forall (λ P, claims_ext P ext = false) plugins →
  probe_until_confirmed filename ext plugins i = (Exhausted, []).
Proof.
  induction plugins as [|P rest IH]; intros i Hno; simpl; [done|].
  inversion Hno as [|? ? HP Hrest]; subst. rewrite HP. by apply IH.
Qed.
End Dispatch.

Lemma find_first {A} (f : A → bool) (l : list A) : ∀ i x,
  l !! i = Some x → f x = true →
  (∀ j y, j < i → l !! j = Some y → f y = false) →
  find f l = Some x.
Proof.
  induction l as [|a l IH]; intros i x Hi Hx Hbefore; [done|].
  destruct i as [|i]; simpl in *.
  - injection Hi as ->. by rewrite Hx.
  - rewrite (Hbefore 0 a) by (done || lia).
    apply (IH i); [done..|].
    intros j y Hj Hy. apply (Hbefore (S j) y); [lia|done].
Qed.

(** The [break] branch of the loop is live code: it is taken when the flag
    of an extension-matching provider is already cleared. *)
Example identify_loop_break :
  identify_loop "scan.hdf5" ".hdf5" [Samples.dataexch] 0 [false] []
  = Ok (Broke, [0]).
Proof. reflexivity. Qed.

(** C1: for every registry and filename, [identify] returns the first
    provider in registration order whose extension list contains the
    file's extension and whose probe confirms; in particular, with A
    (probe false) and B (probe true) both claiming the extension and
    registered in the order A, B, it returns B. *)
Theorem identify_returns_first_confirming {R} :
  (∀ (plugins : list (Plugin.t R)) (filename : string) (i : nat) (P : Plugin.t R),
      plugins !! i = Some P →
      claims_ext P (splitext filename).2 && Plugin.identify P filename = true →
      (∀ j Q, j < i → plugins !! j = Some Q →
              claims_ext Q (splitext filename).2 && Plugin.identify Q filename = false) →
      identify plugins filename = Ok (Some P)) ∧
  (∀ (A B : Plugin.t R) (filename : string),
      claims_ext A (splitext filename).2 = true → Plugin.identify A filename = false →
      claims_ext B (splitext filename).2 = true → Plugin.identify B filename = true →
      identify [A; B] filename = Ok (Some B)).
Proof.
  split.
  - intros plugins filename i P Hi HP Hbefore.
    rewrite identify_find. unfold first_confirming. f_equal.
    by apply (find_first _ plugins i P).
  - intros A B filename HA HpA HB HpB.
    rewrite identify_find. unfold first_confirming. simpl.
    by rewrite HA, HpA, HB, HpB.
Qed.

Lemma identify_returns_first_confirming_witness :
  identify Samples.registry "/data/scan.hdf5" = Ok (Some Samples.nexus) ∧
  identify [Samples.dataexch; Samples.nexus] "/data/scan.hdf5" = Ok (Some Samples.nexus).
Proof.
  split.
  - apply (proj1 identify_returns_first_confirming Samples.registry "/data/scan.hdf5"
                 1 Samples.nexus).
    + reflexivity.
    + vm_compute. reflexivity.
    + intros j Q Hj HQ. destruct j as [|j]; [|lia].
      injection HQ as <-. vm_compute. reflexivity.
  - apply (proj2 identify_returns_first_confirming Samples.dataexch Samples.nexus
                 "/data/scan.hdf5"); vm_compute; reflexivity.
Defined.

(** C2: when no registered provider's extension list contains the file's
    extension, [identify] probes nobody, raises nothing and returns None. *)
Theorem identify_no_extension_match {R} (plugins : list (Plugin.t R)) (filename : string) :
  Forall (λ P, claims_ext P (splitext filename).2 = false) plugins →
  identify_run plugins filename = Ok (Exhausted, []) ∧
  identify plugins filename = Ok None.
Proof.
  intros Hno.
  assert (identify_run plugins filename = Ok (Exhausted, [])) as Hrun.
  { rewrite identify_run_scan. f_equal. by apply scan_no_claim. }
  split; [done|]. unfold identify. by rewrite Hrun.
Qed.

Lemma identify_no_extension_match_witness :
  identify_run Samples.registry "/data/notes.txt" = Ok (Exhausted, []) ∧
  identify Samples.registry "/data/notes.txt" = Ok None.
Proof.
  apply (identify_no_extension_match Samples.registry "/data/notes.txt").
  repeat constructor.
Defined.

(** C10: the early-stop ([break]) branch of [identify] is never taken: for
    every registry and filename the scan probes the extension-matching
    providers in registration order until one confirms, and ends either by
    returning that provider or by exhausting the registry. *)
Theorem identify_never_breaks {R} (plugins : list (Plugin.t R)) (filename : string) :
  ∃ exit probed,
    identify_run plugins filename = Ok (exit, probed) ∧
    is_broke exit = false ∧
    (exit, probed) = probe_until_confirmed filename (splitext filename).2 plugins 0.
Proof.
  pose proof (scan_never_breaks filename (splitext filename).2 plugins 0) as Hnb.
  destruct (probe_until_confirmed filename (splitext filename).2 plugins 0)
    as [exit probed] eqn:Hscan.
  exists exit, probed. split; [|done].
  by rewrite identify_run_scan, Hscan.
Qed.

(** ** Discovery *)

Section Discovery.
Context {R : Type}.
Implicit Types (candidates : list (exec_result R)) (plugins : list (Plugin.t R)).

Lemma discover_ok candidates : ∀ plugins,
  Forall (λ m, is_fatal m = false) candidates →
  discover candidates plugins = Ok (plugins ++ registered candidates).
Proof.
  induction candidates as [|m rest IH]; intros plugins Hok; simpl.
  - by rewrite app_nil_r.
  - inversion Hok as [|? ? Hm Hrest]; subst.
    destruct m as [module|e]; simpl.
    + unfold registered; simpl. destruct (has_read module); simpl.
      * rewrite IH by done. by rewrite <- app_assoc.
      * by apply IH.
    + destruct e; try discriminate Hm. by apply IH.
Qed.

Lemma discover_inv candidates : ∀ plugins result,
  discover candidates plugins = Ok result →
  result = plugins ++ registered candidates.
Proof.
  induction candidates as [|m rest IH]; intros plugins result Hd; simpl in *.
  - injection Hd as <-. by rewrite app_nil_r.
  - destruct m as [module|e]; simpl.
    + unfold registered; simpl. destruct (has_read module); simpl.
      * rewrite (IH _ _ Hd). by rewrite <- app_assoc.
      * by apply IH.
    + destruct e; try discriminate Hd. by apply IH.
Qed.

Lemma registered_has_read candidates :
  Forall (λ P, has_read P = true) (registered candidates).
Proof.
  induction candidates as [|m rest IH]; [constructor|].
  unfold registered; simpl. destruct m as [module|e]; simpl; [|done].
  destruct (has_read module) eqn:Hr; simpl; [|done]. by constructor.
Qed.

Lemma discover_skip candidates m : ∀ post plugins,
  is_fatal m = false → registers m = None →
  discover (candidates ++ m :: post) plugins = discover (candidates ++ post) plugins.
Proof.
  induction candidates as [|c rest IH]; intros post plugins Hnf Hnone; simpl.
  - destruct m as [module|e]; simpl in *.
    + by destruct (has_read module).
    + by destruct e.
  - destruct c as [module|e].
    + destruct (has_read module); by apply IH.
    + destruct e; try done; by apply IH.
Qed.
End Discovery.

(** C9: every provider in the registry after discovery exposes [read]; a
    candidate without [read] leaves the registry as if it had not been
    there; a candidate that fails with ImportError is skipped and discovery
    goes on with the remaining candidates. *)
Theorem discovery_keeps_readers_only {R} :
  (∀ (candidates : list (exec_result R)) plugins,
      discover candidates [] = Ok plugins → Forall (λ P, has_read P = true) plugins) ∧
  (∀ (candidates : list (exec_result R)),
      Forall (λ m, is_fatal m = false) candidates →
      discover candidates [] = Ok (registered candidates)) ∧
  (∀ (pre post : list (exec_result R)) module plugins,
      has_read module = false →
      discover (pre ++ Executed module :: post) plugins = discover (pre ++ post) plugins) ∧
  (∀ (pre post : list (exec_result R)) msg plugins,
      discover (pre ++ Failed (ImportError msg) :: post) plugins
      = discover (pre ++ post) plugins).
Proof.
  repeat split.
  - intros candidates plugins Hd. apply discover_inv in Hd. subst. simpl.
    apply registered_has_read.
  - intros candidates Hok. by rewrite discover_ok.
  - intros pre post module plugins Hr. apply discover_skip; [done|].
    simpl. by rewrite Hr.
  - intros pre post msg plugins. by apply discover_skip.
Qed.

Lemma discovery_keeps_readers_only_witness :
  Forall (λ P, has_read P = true) [Samples.dataexch; Samples.tif] ∧
  discover [Executed Samples.dataexch; Failed (ImportError "No module named h5py");
            Executed Samples.helper; Executed Samples.tif] []
  = Ok [Samples.dataexch; Samples.tif] ∧
  discover ([Executed Samples.dataexch] ++ Executed Samples.helper :: [Executed Samples.tif]) []
  = discover ([Executed Samples.dataexch] ++ [Executed Samples.tif]) [].
Proof.
  destruct (@discovery_keeps_readers_only Z) as (Hread & Hok & Hskip & _).
  split; [|split].
  - apply (Hread [Executed Samples.dataexch; Failed (ImportError "No module named h5py");
                  Executed Samples.helper; Executed Samples.tif]).
    reflexivity.
  - apply (Hok [Executed Samples.dataexch; Failed (ImportError "No module named h5py");
                Executed Samples.helper; Executed Samples.tif]).
    repeat constructor.
  - apply (Hskip [Executed Samples.dataexch] [Executed Samples.tif] Samples.helper []).
    reflexivity.
Defined.

(** A failure other than ImportError is not caught: discovery stops. *)
Example discover_other_failure :
  discover [Executed Samples.dataexch; Failed (AttributeError "title");
            Executed Samples.tif] []
  = Raise (AttributeError "title").
Proof. reflexivity. Qed.

(** ** Load orchestrator *)

(** C3: with no explicit provider [load] runs the dispatcher, and when the
    dispatcher finds none it returns None, raises nothing, reads nothing
    and leaves the target object as it was. *)
Theorem load_without_provider {R} `{!NumLib R} (data_stack_data : struct_handle → stack R)
    (plugins : list (Plugin.t R)) (filename : string) (stack_object : stack R)
    (selection : option (list selector)) (json : option json_t) :
  identify plugins filename = Ok None →
  load data_stack_data plugins filename stack_object None selection json
  = LoadRun (Ok tt) stack_object [].
Proof. intros Hid. unfold load, resolve. by rewrite Hid. Qed.

Lemma load_without_provider_witness :
  load Samples.new_stack Samples.registry "/data/notes.txt" Samples.empty_stack
       None (Some [(0, 0); (1, 0)]) None
  = LoadRun (Ok tt) Samples.empty_stack [].
Proof.
  apply (load_without_provider Samples.new_stack Samples.registry "/data/notes.txt").
  vm_compute. reflexivity.
Defined.

Section Stitch.
Context {R : Type} `{!NumLib R}.
Implicit Types (A B c : cube R).

Lemma lookup_map {X Y} (f : X → Y) (l : list X) (i : nat) :
  map f l !! i = f <$> (l !! i).
Proof. apply (list_lookup_fmap f l i). Qed.

Lemma pad_cols_wf c k : cube_wf c → cube_wf (pad_cols c k).
Proof.
  intros [Hlen Hrows]. split; simpl.
  - by rewrite length_map.
  - apply (Forall_fmap _ _ (cells c)).
    eapply Forall_impl; [exact Hrows|]. intros row [Hr Hpx]; simpl. split.
    + by rewrite length_app, length_replicate, Hr.
    + apply Forall_app. split; [done|].
      apply Forall_replicate. by rewrite length_replicate.
Qed.

Lemma vstack_ok A B :
  ncol A = ncol B → nchan A = nchan B →
  vstack A B = Ok (Cube (nrow A + nrow B) (ncol A) (nchan A) (cells A ++ cells B)).
Proof. intros Hc He. unfold vstack. by rewrite Hc, He, !Nat.eqb_refl. Qed.

Lemma vstack_wf A B M : cube_wf A → cube_wf B → vstack A B = Ok M → cube_wf M.
Proof.
  intros [HlA HrA] [HlB HrB]. unfold vstack.
  destruct (ncol A =? ncol B) eqn:Hc; [|done].
  destruct (nchan A =? nchan B) eqn:He; [|done].
  apply Nat.eqb_eq in Hc, He. intros [= <-]. split; simpl.
  - by rewrite length_app, HlA, HlB.
  - apply Forall_app. split; [done|]. by rewrite Hc, He.
Qed.

(** The three cases of the column reconciliation. *)
Lemma stitch_narrow_full A B :
  ncol A < ncol B →
  stitch A B = (M ← vstack (pad_cols A (ncol B - ncol A)) B; Ok (M, B)).
Proof.
  intros Hlt. unfold stitch.
  destruct (ncol B <? ncol A) eqn:H1; [apply Nat.ltb_lt in H1; lia|].
  destruct (ncol A <? ncol B) eqn:H2; [done|apply Nat.ltb_ge in H2; lia].
Qed.

Lemma stitch_narrow_temp A B :
  ncol B < ncol A →
  stitch A B = (M ← vstack A (pad_cols B (ncol A - ncol B));
                Ok (M, pad_cols B (ncol A - ncol B))).
Proof.
  intros Hlt. unfold stitch.
  destruct (ncol B <? ncol A) eqn:H1; [done|apply Nat.ltb_ge in H1; lia].
Qed.

Lemma stitch_same_width A B :
  ncol A = ncol B → stitch A B = (M ← vstack A B; Ok (M, B)).
Proof.
  intros Heq. unfold stitch.
  destruct (ncol B <? ncol A) eqn:H1; [apply Nat.ltb_lt in H1; lia|].
  destruct (ncol A <? ncol B) eqn:H2; [apply Nat.ltb_lt in H2; lia|done].
Qed.

(** Stitching never fails on the column counts. *)
Lemma stitch_shape A B :
  nchan A = nchan B →
  ∃ M T, stitch A B = Ok (M, T) ∧
         shape M = (nrow A + nrow B, ncol A `max` ncol B, nchan A).
Proof.
  intros He.
  destruct (lt_eq_lt_dec (ncol A) (ncol B)) as [[Hlt|Heq]|Hgt].
  - rewrite stitch_narrow_full by lia.
    rewrite vstack_ok by (simpl; lia). simpl.
    eexists _, _. split; [done|]. unfold shape; simpl. do 2 f_equal. lia.
  - rewrite stitch_same_width by lia. rewrite vstack_ok by done. simpl.
    eexists _, _. split; [done|]. unfold shape; simpl. do 2 f_equal. lia.
  - rewrite stitch_narrow_temp by lia.
    rewrite vstack_ok by (simpl; lia). simpl.
    eexists _, _. split; [done|]. unfold shape; simpl. do 2 f_equal. lia.
Qed.

Lemma stitch_wf A B M T :
  cube_wf A → cube_wf B → stitch A B = Ok (M, T) → cube_wf M ∧ cube_wf T.
Proof.
  intros HA HB.
  destruct (lt_eq_lt_dec (ncol A) (ncol B)) as [[Hlt|Heq]|Hgt].
  - rewrite stitch_narrow_full by lia.
    destruct (vstack _ B) as [M'|] eqn:Hv; [|done]. intros [= <- <-].
    split; [|done]. eapply vstack_wf; [| |exact Hv]; [by apply pad_cols_wf|done].
  - rewrite stitch_same_width by lia.
    destruct (vstack A B) as [M'|] eqn:Hv; [|done]. intros [= <- <-].
    split; [|done]. eapply vstack_wf; [| |exact Hv]; done.
  - rewrite stitch_narrow_temp by lia.
    destruct (vstack A _) as [M'|] eqn:Hv; [|done]. intros [= <- <-].
    split; [|by apply pad_cols_wf].
    eapply vstack_wf; [| |exact Hv]; [done|by apply pad_cols_wf].
Qed.
(** The loop over the remaining selections: as long as every read returns
    a cube with the accumulated cube's slice count, it returns, whatever
    the column counts are. *)
Lemma merge_selections_columns (rd : reader R) filename : ∀ rest full temp log,
  (∀ s t, s ∈ rest →
     ∃ t', rd filename t (Some s) None = (Ok tt, t') ∧ nchan (absdata t') = nchan full) →
  ∃ M log', merge_selections rd filename rest full temp log = (Ok M, log') ∧
            nchan M = nchan full ∧ nrow full ≤ nrow M ∧ ncol full ≤ ncol M.
Proof.
  induction rest as [|s rest IH]; intros full temp log Hreads; simpl.
  - exists full, log. by repeat split.
  - destruct (Hreads s temp) as (t' & Hrd & He); [by left|].
    rewrite Hrd.
    destruct (stitch_shape full (absdata t')) as (M1 & T1 & Hst & Hsh); [done|].
    rewrite Hst. injection Hsh as Hr Hk Hch.
    destruct (IH M1 (set_absdata t' T1) (log ++ [ReadCall TempStack (Some s) None]))
      as (M & log' & Hm & HeM & HrM & HkM).
    { intros s' t Hs'. destruct (Hreads s' t) as (t'' & Hrd' & He'); [by right|].
      exists t''. split; [done|]. by rewrite Hch. }
    exists M, log'. split; [done|]. split; [by rewrite HeM|]. split; lia.
Qed.
End Stitch.

Example stitch_sample :
  stitch Samples.one_px (Cube 1 2 1 [[[8%Z]; [9%Z]]])
  = Ok (Cube 2 2 1 [[[7%Z]; [0%Z]]; [[8%Z]; [9%Z]]], Cube 1 2 1 [[[8%Z]; [9%Z]]]).
Proof. reflexivity. Qed.

(** A slice-count mismatch is an error of [numpy.vstack]. *)
Example stitch_slice_mismatch :
  is_ok (stitch Samples.one_px (Cube 1 1 2 [[[8%Z; 9%Z]]])) = false.
Proof. reflexivity. Qed.

Section LoadProps.
Context {R : Type} `{!NumLib R}.
Variable data_stack_data : struct_handle → stack R.
Implicit Types (so : stack R) (rd : reader R).

Lemma load_resolved plugins filename so plugin P selection json :
  resolve plugins filename plugin = Ok (Some P) →
  load data_stack_data plugins filename so plugin selection json
  = load_with data_stack_data P filename so selection json.
Proof. unfold load. by intros ->. Qed.

Lemma load_with_populated P rd filename so selection json :
  Plugin.read P = Some rd →
  outcome (populate data_stack_data rd filename so selection json) = Ok tt →
  load_with data_stack_data P filename so selection json
  = let p := populate data_stack_data rd filename so selection json in
    LoadRun (resample (stack_after p)).1 (resample (stack_after p)).2 (reads p).
Proof.
  intros Hrd Hok. unfold load_with. rewrite Hrd; simpl. rewrite Hok.
  by destruct (resample _).
Qed.

Lemma populate_merged rd filename so so1 s0 s1 rest json full log :
  rd filename so (Some s0) json = (Ok tt, so1) →
  merge_selections rd filename (s1 :: rest) (absdata so1)
                   (data_stack_data (data_struct so1))
                   [ReadCall StackObject (Some s0) json] = (Ok full, log) →
  populate data_stack_data rd filename so (Some (s0 :: s1 :: rest)) json
  = LoadRun (Ok tt) (store_merged so1 full) log.
Proof.
  intros Hfirst Hmerge. unfold populate. rewrite Hfirst.
  cbv beta iota zeta. by rewrite Hmerge.
Qed.

Lemma resample_keeps so :
  absdata (resample so).2 = absdata so ∧ x_dist (resample so).2 = x_dist so ∧
  y_dist (resample so).2 = y_dist so ∧ n_cols (resample so).2 = n_cols so ∧
  n_rows (resample so).2 = n_rows so.
Proof. unfold resample. by destruct (interpolate_absdata_flat _ _ _ _). Qed.

Lemma length_arange n : length (arange n : list R) = n.
Proof. unfold arange. by rewrite length_map, length_seq. Qed.
End LoadProps.

Section StitchContent.
Context {R : Type} `{!NumLib R}.
Implicit Types (A B M c : cube R).

(** The cells of a stack of two cubes. *)
Lemma cell_vstack A B M :
  cube_wf A → vstack A B = Ok M →
  ∀ r k e, cell M r k e
           = if decide (r < nrow A) then cell A r k e else cell B (r - nrow A) k e.
Proof.
  intros [HlA _]. unfold vstack.
  destruct ((ncol A =? ncol B) && (nchan A =? nchan B)); [|done].
  intros [= <-] r k e. unfold cell; simpl.
  destruct (decide (r < nrow A)).
  - by rewrite lookup_app_l by lia.
  - rewrite lookup_app_r by lia. by rewrite HlA.
Qed.

(** The cells of a cube padded on the column axis. *)
Lemma cell_pad_cols c n r k e :
  cube_wf c → r < nrow c →
  cell (pad_cols c n) r k e
  = if decide (k < ncol c) then cell c r k e
    else if decide (k < ncol c + n ∧ e < nchan c) then Some (of_Z 0) else None.
Proof.
  intros [Hl Hrows] Hr. unfold cell; simpl. rewrite lookup_map.
  destruct (cells c !! r) as [row|] eqn:Hrow; [|apply lookup_ge_None in Hrow; lia].
  simpl. rewrite Forall_forall in Hrows.
  destruct (Hrows row) as [Hlen _]; [by eapply list_elem_of_lookup_2|].
  destruct (decide (k < ncol c)).
  - by rewrite lookup_app_l by lia.
  - rewrite lookup_app_r by lia.
    destruct (decide (k < ncol c + n ∧ e < nchan c)) as [[Hk He]|Hno].
    + rewrite lookup_replicate_2 by lia. simpl. by rewrite lookup_replicate_2.
    + destruct (decide (k < ncol c + n)).
      * rewrite lookup_replicate_2 by lia. simpl. apply lookup_replicate_None. lia.
      * rewrite (proj1 (lookup_replicate_None _ _ _)) by lia. done.
Qed.

(** What a stitch returns, cell by cell, whatever the two column counts. *)
Lemma stitch_content A B :
  cube_wf A → cube_wf B → nchan A = nchan B →
  ∃ M T, stitch A B = Ok (M, T) ∧
         shape M = (nrow A + nrow B, ncol A `max` ncol B, nchan A) ∧
         cube_wf M ∧
         (∀ r k e, r < nrow A → k < ncol A → cell M r k e = cell A r k e) ∧
         (∀ r k e, r < nrow A → ncol A ≤ k → k < ncol A `max` ncol B → e < nchan A →
                   cell M r k e = Some (of_Z 0)) ∧
         (∀ r k e, r < nrow B → k < ncol B → cell M (nrow A + r) k e = cell B r k e) ∧
         (∀ r k e, r < nrow B → ncol B ≤ k → k < ncol A `max` ncol B → e < nchan A →
                   cell M (nrow A + r) k e = Some (of_Z 0)).
Proof.
  intros HA HB He.
  destruct (stitch_shape A B He) as (M & T & Hst & Hsh).
  exists M, T. split; [done|]. split; [done|].
  split; [exact (proj1 (stitch_wf A B M T HA HB Hst))|].
  destruct (lt_eq_lt_dec (ncol A) (ncol B)) as [[Hlt|Heq]|Hgt].
  - rewrite stitch_narrow_full in Hst by lia.
    destruct (vstack (pad_cols A (ncol B - ncol A)) B) as [M'|] eqn:Hv; [|done].
    injection Hst as <- <-.
    pose proof (cell_vstack _ _ _ (pad_cols_wf A _ HA) Hv) as Hcell. simpl in Hcell.
    repeat split; intros r k e; intros; rewrite Hcell.
    + rewrite decide_True by lia. rewrite cell_pad_cols by done.
      by rewrite decide_True by lia.
    + rewrite decide_True by lia. rewrite cell_pad_cols by done.
      rewrite decide_False by lia. by rewrite decide_True by (split; lia).
    + rewrite decide_False by lia. f_equal. lia.
    + lia.
  - rewrite stitch_same_width in Hst by lia.
    destruct (vstack A B) as [M'|] eqn:Hv; [|done].
    injection Hst as <- <-.
    pose proof (cell_vstack _ _ _ HA Hv) as Hcell.
    repeat split; intros r k e; intros; try lia; rewrite Hcell.
    + by rewrite decide_True by lia.
    + rewrite decide_False by lia. f_equal. lia.
  - rewrite stitch_narrow_temp in Hst by lia.
    destruct (vstack A (pad_cols B (ncol A - ncol B))) as [M'|] eqn:Hv; [|done].
    injection Hst as <- <-.
    pose proof (cell_vstack _ _ _ HA Hv) as Hcell.
    repeat split; intros r k e; intros; try lia; rewrite Hcell.
    + by rewrite decide_True by lia.
    + rewrite decide_False by lia.
      replace (nrow A + r - nrow A) with r by lia.
      rewrite cell_pad_cols by done. by rewrite decide_True by lia.
    + rewrite decide_False by lia.
      replace (nrow A + r - nrow A) with r by lia.
      rewrite cell_pad_cols by done.
      rewrite decide_False by lia. by rewrite decide_True by (split; lia).
Qed.

(** With a provider whose read of a selection gives the same cube whatever
    the scratch object held, the loop of [load] stitches these cubes one
    after the other onto the accumulated cube. *)
Lemma merge_selections_stitch_all (rd : reader R) filename (cube_of : selector → cube R) :
  ∀ rest full temp log,
    (∀ s t, s ∈ rest →
       ∃ t', rd filename t (Some s) None = (Ok tt, t') ∧ absdata t' = cube_of s) →
    (merge_selections rd filename rest full temp log).1
    = stitch_all full (map cube_of rest).
Proof.
  induction rest as [|s rest IH]; intros full temp log Hreads; simpl; [done|].
  destruct (Hreads s temp) as (t' & -> & ->); [by left|].
  destruct (stitch full (cube_of s)) as [[M1 T1]|e]; simpl; [|done].
  apply IH. intros s' t Hs'. apply Hreads. by right.
Qed.
End StitchContent.

(** C4: stitching cubes of shapes (R1,C1,E) and (R2,C2,E) with C1 < C2 gives
    a cube of shape (R1+R2, C2, E) whose first R1 rows hold the first cube's
    data followed by columns of zeros and whose last R2 rows are the second
    cube's data.  Whatever the two column counts are, the stitch raises
    nothing: the merged cube has the larger column count, holds both cubes'
    data, and every cell beyond the narrower cube's columns is zero.  In a
    [load] of several selections whose reads return cubes of one slice
    count, the cube stored is these cubes stitched one after the other. *)
Theorem stitch_zero_pads_narrower {R} `{!NumLib R} :
  (∀ A B : cube R, cube_wf A → cube_wf B → nchan A = nchan B → ncol A < ncol B →
     ∃ M, stitch A B = Ok (M, B) ∧
          shape M = (nrow A + nrow B, ncol B, nchan B) ∧
          cube_wf M ∧
          (∀ r k e, r < nrow A → k < ncol A → cell M r k e = cell A r k e) ∧
          (∀ r k e, r < nrow A → ncol A ≤ k → k < ncol B → e < nchan A →
                    cell M r k e = Some (of_Z 0)) ∧
          drop (nrow A) (cells M) = cells B) ∧
  (∀ A B : cube R, cube_wf A → cube_wf B → nchan A = nchan B →
     ∃ M T, stitch A B = Ok (M, T) ∧
            shape M = (nrow A + nrow B, ncol A `max` ncol B, nchan A) ∧
            cube_wf M ∧
            (∀ r k e, r < nrow A → k < ncol A → cell M r k e = cell A r k e) ∧
            (∀ r k e, r < nrow A → ncol A ≤ k → k < ncol A `max` ncol B → e < nchan A →
                      cell M r k e = Some (of_Z 0)) ∧
            (∀ r k e, r < nrow B → k < ncol B →
                      cell M (nrow A + r) k e = cell B r k e) ∧
            (∀ r k e, r < nrow B → ncol B ≤ k → k < ncol A `max` ncol B → e < nchan A →
                      cell M (nrow A + r) k e = Some (of_Z 0))) ∧
  (∀ (data_stack_data : struct_handle → stack R) (plugins : list (Plugin.t R))
     (filename : string) (stack_object so1 : stack R) (plugin : option (Plugin.t R))
     (P : Plugin.t R) (rd : reader R) (cube_of : selector → cube R)
     (s0 s1 : selector) (rest : list selector) (json : option json_t),
     resolve plugins filename plugin = Ok (Some P) →
     Plugin.read P = Some rd →
     rd filename stack_object (Some s0) json = (Ok tt, so1) →
     (∀ s t, s ∈ s1 :: rest →
        ∃ t', rd filename t (Some s) None = (Ok tt, t') ∧ absdata t' = cube_of s) →
     (∀ s, s ∈ s1 :: rest → nchan (cube_of s) = nchan (absdata so1)) →
     ∃ M, stitch_all (absdata so1) (map cube_of (s1 :: rest)) = Ok M ∧
          outcome (populate data_stack_data rd filename stack_object
                            (Some (s0 :: s1 :: rest)) json) = Ok tt ∧
          absdata (stack_after (load data_stack_data plugins filename stack_object plugin
                                     (Some (s0 :: s1 :: rest)) json)) = M).
Proof.
  split; [|split; [apply @stitch_content|]].
  - intros A B HA HB He Hlt.
    pose proof (stitch_narrow_full A B Hlt) as Hst.
    rewrite vstack_ok in Hst by (simpl; lia). simpl in Hst.
    eexists. split; [exact Hst|].
    pose proof HA as [HlA HrA]. pose proof HB as [HlB HrB].
    assert (∀ r row, r < nrow A → cells A !! r = Some row →
              (map (λ row, row ++ replicate (ncol B - ncol A) (replicate (nchan A) (of_Z 0)))
                   (cells A) ++ cells B) !! r
              = Some (row ++ replicate (ncol B - ncol A) (replicate (nchan A) (of_Z 0))))
      as Hrow.
    { intros r row Hr Hlk. rewrite lookup_app_l by (rewrite length_map; lia).
      by rewrite lookup_map, Hlk. }
    split; [|split; [|split; [|split]]].
    + unfold shape; simpl. rewrite He. do 2 f_equal. lia.
    + exact (proj1 (stitch_wf A B _ _ HA HB Hst)).
    + intros r k e Hr Hk. unfold cell; simpl.
      destruct (cells A !! r) as [row|] eqn:Hlk.
      * rewrite (Hrow r row Hr Hlk). simpl.
        rewrite Forall_forall in HrA.
        destruct (HrA row) as [Hlen _]; [by eapply list_elem_of_lookup_2|].
        by rewrite lookup_app_l by lia.
      * apply lookup_ge_None in Hlk. lia.
    + intros r k e Hr Hk1 Hk2 Hech. unfold cell; simpl.
      destruct (cells A !! r) as [row|] eqn:Hlk.
      * rewrite (Hrow r row Hr Hlk). simpl.
        rewrite Forall_forall in HrA.
        destruct (HrA row) as [Hlen _]; [by eapply list_elem_of_lookup_2|].
        rewrite lookup_app_r by lia.
        rewrite lookup_replicate_2 by lia. simpl.
        by rewrite lookup_replicate_2.
      * apply lookup_ge_None in Hlk. lia.
    + simpl. rewrite drop_app_length'; [done|]. by rewrite length_map.
  - intros dsd plugins filename so so1 plugin P rd cube_of s0 s1 rest json
           Hres Hrd Hfirst Hreads Hchan.
    destruct (merge_selections_columns rd filename (s1 :: rest) (absdata so1)
                (dsd (data_struct so1)) [ReadCall StackObject (Some s0) json])
      as (M & log' & Hmerge & _).
    { intros s t Hs. destruct (Hreads s t Hs) as (t' & Hr & Ha).
      exists t'. split; [done|]. rewrite Ha. by apply Hchan. }
    pose proof (merge_selections_stitch_all rd filename cube_of (s1 :: rest) (absdata so1)
                  (dsd (data_struct so1)) [ReadCall StackObject (Some s0) json] Hreads)
      as Hall.
    rewrite Hmerge in Hall. simpl in Hall.
    pose proof (populate_merged dsd rd filename so so1 s0 s1 rest json M log'
                                Hfirst Hmerge) as Hpop.
    exists M. split; [done|]. split; [by rewrite Hpop|].
    rewrite (load_resolved _ _ _ _ _ P) by done.
    rewrite (load_with_populated _ P rd) by (done || by rewrite Hpop).
    rewrite Hpop. cbv zeta. simpl.
    by destruct (resample_keeps (store_merged so1 M)) as (-> & _).
Qed.

Lemma stitch_zero_pads_narrower_witness :
  (∃ M, stitch Samples.one_px (Cube 1 2 1 [[[8%Z]; [9%Z]]])
        = Ok (M, Cube 1 2 1 [[[8%Z]; [9%Z]]]) ∧
        shape M = (2, 2, 1) ∧
        cube_wf M ∧
        (∀ r k e, r < 1 → k < 1 → cell M r k e = cell Samples.one_px r k e) ∧
        (∀ r k e, r < 1 → 1 ≤ k → k < 2 → e < 1 → cell M r k e = Some 0%Z) ∧
        drop 1 (cells M) = [[[8%Z]; [9%Z]]]) ∧
  (∃ M T, stitch (Cube 1 2 1 [[[8%Z]; [9%Z]]]) Samples.one_px = Ok (M, T) ∧
          shape M = (2, 2, 1) ∧
          cube_wf M ∧
          (∀ r k e, r < 1 → k < 2 →
                    cell M r k e = cell (Cube 1 2 1 [[[8%Z]; [9%Z]]]) r k e) ∧
          (∀ r k e, r < 1 → 2 ≤ k → k < 2 → e < 1 → cell M r k e = Some 0%Z) ∧
          (∀ r k e, r < 1 → k < 1 → cell M (1 + r) k e = cell Samples.one_px r k e) ∧
          (∀ r k e, r < 1 → 1 ≤ k → k < 2 → e < 1 → cell M (1 + r) k e = Some 0%Z)) ∧
  (∃ M, stitch_all Samples.one_px
                   (map (λ s, Samples.regions "/data/scan.hdf5" (Some s)) [(1, 0); (0, 0)])
        = Ok M ∧
        outcome (populate Samples.new_stack Samples.rd "/data/scan.hdf5" Samples.empty_stack
                          (Some [(0, 0); (1, 0); (0, 0)]) None) = Ok tt ∧
        absdata (stack_after (load Samples.new_stack Samples.registry "/data/scan.hdf5"
                                   Samples.empty_stack None
                                   (Some [(0, 0); (1, 0); (0, 0)]) None)) = M).
Proof.
  split; [|split].
  - refine (proj1 stitch_zero_pads_narrower Samples.one_px
                  (Cube 1 2 1 [[[8%Z]; [9%Z]]]) _ _ _ _).
    + split; simpl; repeat constructor.
    + split; simpl; repeat constructor.
    + reflexivity.
    + simpl. lia.
  - refine (proj1 (proj2 stitch_zero_pads_narrower) (Cube 1 2 1 [[[8%Z]; [9%Z]]])
                  Samples.one_px _ _ _).
    + split; simpl; repeat constructor.
    + split; simpl; repeat constructor.
    + reflexivity.
  - refine (proj2 (proj2 stitch_zero_pads_narrower) Samples.new_stack Samples.registry
                  "/data/scan.hdf5" Samples.empty_stack
                  (Stack "h5" Samples.one_px (Arr1 []) (Arr1 []) 0 0
                         (Arr1 [0%Z]) (Arr1 [0%Z]) None)
                  None Samples.nexus Samples.rd
                  (λ s, Samples.regions "/data/scan.hdf5" (Some s))
                  (0, 0) (1, 0) [(0, 0)] None _ _ _ _ _).
    + vm_compute. reflexivity.
    + reflexivity.
    + reflexivity.
    + intros s t _. eexists. split; reflexivity.
    + intros [[|n] m] _; reflexivity.
Defined.

(** The merged cube of two reads, narrower cube second: the second row is
    padded with a zero. *)
Example stitch_pads_second_with_zero :
  stitch (Cube 1 2 1 [[[8%Z]; [9%Z]]]) Samples.one_px
  = Ok (Cube 2 2 1 [[[8%Z]; [9%Z]]; [[7%Z]; [0%Z]]], Cube 1 2 1 [[[7%Z]; [0%Z]]]).
Proof. reflexivity. Qed.

Lemma lookup_arange {R} `{!NumLib R} (n i : nat) :
  i < n → (arange n : list R) !! i = Some (of_Z (Z.of_nat i)).
Proof. intros Hi. unfold arange. by rewrite lookup_map, lookup_seq_lt. Qed.

(** C5: when [load] is given more than one selection and all of them are
    read and merged, the merged cube is stored in the target object and its
    [x_dist] and [y_dist] become 1-d arrays as long as the merged cube's
    row and column counts whose entry at index i is the integer i (the
    sequences 0..n-1), whatever the resampling step does next. *)
Theorem load_reindexes_merged_cube {R} `{!NumLib R}
    (data_stack_data : struct_handle → stack R) (plugins : list (Plugin.t R))
    (filename : string) (stack_object so1 : stack R) (plugin : option (Plugin.t R))
    (P : Plugin.t R) (rd : reader R) (s0 s1 : selector) (rest : list selector)
    (json : option json_t) (full : cube R) (log : list read_call) :
  resolve plugins filename plugin = Ok (Some P) →
  Plugin.read P = Some rd →
  rd filename stack_object (Some s0) json = (Ok tt, so1) →
  merge_selections rd filename (s1 :: rest) (absdata so1)
                   (data_stack_data (data_struct so1))
                   [ReadCall StackObject (Some s0) json] = (Ok full, log) →
  let final :=
    stack_after (load data_stack_data plugins filename stack_object plugin
                      (Some (s0 :: s1 :: rest)) json) in
  absdata final = full ∧
  (∃ xs ys,
     x_dist final = Arr1 xs ∧ y_dist final = Arr1 ys ∧
     length xs = nrow full ∧ length ys = ncol full ∧
     (∀ i, i < nrow full → xs !! i = Some (of_Z (Z.of_nat i))) ∧
     (∀ i, i < ncol full → ys !! i = Some (of_Z (Z.of_nat i)))) ∧
  n_cols final = nrow full ∧
  n_rows final = ncol full.
Proof.
  intros Hres Hrd Hfirst Hmerge final. subst final.
  rewrite (load_resolved _ _ _ _ _ P) by done.
  pose proof (populate_merged data_stack_data rd filename stack_object so1 s0 s1 rest
                              json full log Hfirst Hmerge) as Hpop.
  rewrite (load_with_populated _ P rd) by (done || by rewrite Hpop).
  rewrite Hpop. cbv zeta. simpl.
  destruct (resample_keeps (store_merged so1 full)) as (-> & -> & -> & -> & ->).
  simpl. split; [done|]. split; [|by rewrite !length_arange].
  exists (arange (nrow full)), (arange (ncol full)).
  do 2 (split; [done|]). rewrite !length_arange. do 2 (split; [done|]).
  split; intros i Hi; by apply lookup_arange.
Qed.

Lemma load_reindexes_merged_cube_witness :
  (let final :=
     stack_after (load Samples.new_stack Samples.registry "/data/scan.hdf5"
                       Samples.empty_stack None (Some [(0, 0); (1, 0)]) None) in
   absdata final = Cube 2 2 1 [[[7%Z]; [0%Z]]; [[8%Z]; [9%Z]]] ∧
   (∃ xs ys,
      x_dist final = Arr1 xs ∧ y_dist final = Arr1 ys ∧
      length xs = 2 ∧ length ys = 2 ∧
      (∀ i, i < 2 → xs !! i = Some (Z.of_nat i)) ∧
      (∀ i, i < 2 → ys !! i = Some (Z.of_nat i))) ∧
   n_cols final = 2 ∧
   n_rows final = 2) ∧
  x_dist (stack_after (load Samples.new_stack Samples.registry "/data/scan.hdf5"
                            Samples.empty_stack None (Some [(0, 0); (1, 0)]) None))
  = Arr1 [0; 1]%Z ∧
  y_dist (stack_after (load Samples.new_stack Samples.registry "/data/scan.hdf5"
                            Samples.empty_stack None (Some [(0, 0); (1, 0)]) None))
  = Arr1 [0; 1]%Z.
Proof.
  split; [|split; vm_compute; reflexivity].
  refine (load_reindexes_merged_cube Samples.new_stack Samples.registry "/data/scan.hdf5"
            Samples.empty_stack
            (Stack "h5" Samples.one_px (Arr1 []) (Arr1 []) 0 0 (Arr1 [0%Z]) (Arr1 [0%Z]) None)
            None Samples.nexus Samples.rd (0, 0) (1, 0) [] None
            (Cube 2 2 1 [[[7%Z]; [0%Z]]; [[8%Z]; [9%Z]]])
            [ReadCall StackObject (Some (0, 0)) None; ReadCall TempStack (Some (1, 0)) None]
            _ _ _ _).
  - vm_compute. reflexivity.
  - reflexivity.
  - reflexivity.
  - vm_compute. reflexivity.
Defined.




(** A whole-file load of a one-pixel stack, run through the model. *)
Example load_whole_file :
  load Samples.new_stack Samples.registry "/data/scan.hdf5" Samples.empty_stack
       None None None
  = LoadRun (Ok tt)
            (Stack "h5" Samples.one_px (Arr1 []) (Arr1 []) 0 0 (Arr1 [0%Z]) (Arr1 [0%Z])
                   (Some Samples.one_px))
            [ReadCall StackObject None None].
Proof. vm_compute. reflexivity. Qed.

(** A failure of the provider's [read] reaches the caller as it is, and
    nothing is resampled. *)
Example load_read_failure :
  load Samples.new_stack [Samples.broken] "/data/scan.xrm" Samples.empty_stack
       None None None
  = LoadRun (Raise (PluginError "truncated file")) Samples.empty_stack
            [ReadCall StackObject None None].
Proof. vm_compute. reflexivity. Qed.

(** Two regions stitched and resampled on the instrument grid of the
    merged cube. *)
Example load_two_regions :
  load Samples.new_stack [Samples.nexus4] "/data/scan.hdf5" Samples.empty_stack
       None (Some [(0, 0); (1, 0)]) None
  = LoadRun (Ok tt)
            (Stack "h5" (Cube 2 2 1 [[[7%Z]; [0%Z]]; [[8%Z]; [9%Z]]])
                   (Arr1 [0; 1]%Z) (Arr1 [0; 1]%Z) 2 2
                   (Arr1 [0; 1; 0; 1]%Z) (Arr1 [0; 0; 1; 1]%Z)
                   (Some (Cube 2 2 1 [[[7%Z]; [8%Z]]; [[0%Z]; [9%Z]]])))
            [ReadCall StackObject (Some (0, 0)) None; ReadCall TempStack (Some (1, 0)) None].
Proof. vm_compute. reflexivity. Qed.

(** ** Grid resampler *)

Section PerSlice.
Context {R : Type} `{!NumLib R}.
Implicit Types (c acc : cube R) (d : coords R).

(** With the source points unassigned, the first iteration of the
    per-slice loop raises. *)
Lemma resample_per_slice_unassigned c x_dist y_dist name i rest x_ext y_ext acc :
  is_ok (resample_per_slice c x_dist y_dist name None (i :: rest) x_ext y_ext acc) = false.
Proof.
  simpl.
  destruct (extent_i x_dist i x_ext) as [xe|]; simpl; [|done].
  destruct (extent_i y_dist i y_ext) as [ye|]; simpl; [|done].
  destruct (local "x_min_i" xe) as [[x_lo x_hi]|]; simpl; [|done].
  by destruct (local "y_min_i" ye) as [[y_lo y_hi]|].
Qed.

Lemma seq_cons n : 0 < n → seq 0 n = 0 :: seq 1 (n - 1).
Proof. intros Hn. destruct n as [|n]; [lia|]. simpl. by rewrite Nat.sub_0_r. Qed.
End PerSlice.

(** C8: with a 2-d coordinate descriptor and at least one slice,
    [interpolate_absdata_flat] never returns a cube: its per-slice branch
    passes [original_points], which only the 1-d branch assigns, to
    [griddata]. *)
Theorem interpolate_flat_per_slice_raises {R} `{!NumLib R}
    (absdata : cube R) (x_dist y_dist : coords R) (flat : bool) :
  ndim x_dist = 2 ∨ ndim y_dist = 2 →
  0 < nchan absdata →
  is_ok (interpolate_absdata_flat absdata x_dist y_dist flat) = false.
Proof.
  intros Hdim Hchan. unfold interpolate_absdata_flat.
  destruct (shared_grid absdata x_dist y_dist) as [grid|]; simpl; [|done].
  rewrite (seq_cons (nchan absdata)) by done.
  destruct x_dist as [xd|xn xm xrows], y_dist as [yd|yn ym yrows];
    try apply resample_per_slice_unassigned.
  simpl in Hdim. destruct Hdim; discriminate.
Qed.

Lemma interpolate_flat_per_slice_raises_witness :
  is_ok (interpolate_absdata_flat (Cube 2 2 1 [[[1%Z]; [2%Z]]; [[3%Z]; [4%Z]]])
           (Arr2 2 1 [[0%Z]; [1%Z]]) (Arr2 2 1 [[0%Z]; [1%Z]]) true) = false.
Proof.
  apply (interpolate_flat_per_slice_raises (Cube 2 2 1 [[[1%Z]; [2%Z]]; [[3%Z]; [4%Z]]])
           (Arr2 2 1 [[0%Z]; [1%Z]]) (Arr2 2 1 [[0%Z]; [1%Z]]) true).
  - left. reflexivity.
  - simpl. lia.
Defined.

(** On per-slice coordinates the production resampler stops at the
    unassigned local, where the sibling [interpolate_absdata] goes through
    with its own [points]. *)
Example interpolate_flat_unbound_local :
  interpolate_absdata_flat (Cube 2 2 1 [[[1%Z]; [2%Z]]; [[3%Z]; [4%Z]]])
    (Arr2 2 1 [[0%Z]; [1%Z]]) (Arr2 2 1 [[0%Z]; [1%Z]]) true
  = Raise (UnboundLocalError "original_points").
Proof. vm_compute. reflexivity. Qed.

Example interpolate_sibling_returns :
  is_ok (interpolate_absdata (Cube 2 2 1 [[[1%Z]; [2%Z]]; [[3%Z]; [4%Z]]])
           (Arr2 2 1 [[0%Z]; [1%Z]]) (Arr2 2 1 [[0%Z]; [1%Z]])) = true.
Proof. vm_compute. reflexivity. Qed.

(** With no slice at all the loop body never runs. *)
Example interpolate_flat_no_slice :
  interpolate_absdata_flat (Cube 1 1 0 [[[]]]) (Arr2 1 1 [[0%Z]]) (Arr2 1 1 [[0%Z]]) true
  = Ok (Cube 1 1 0 [[[]]]).
Proof. vm_compute. reflexivity. Qed.

Section Reshape.
Context {X : Type}.
Implicit Types (l : list X).

Lemma chunks_length r k : ∀ l, length (chunks r k l) = r.
Proof. induction r as [|r IH]; intros l; simpl; [done|]. by rewrite IH. Qed.

Lemma chunks_rows r k : ∀ l,
  length l = r * k → Forall (λ row, length row = k) (chunks r k l).
Proof.
  induction r as [|r IH]; intros l Hl; simpl; constructor.
  - rewrite length_take. lia.
  - apply IH. rewrite length_drop. lia.
Qed.

Lemma concat_chunks r k : ∀ l, length l = r * k → concat (chunks r k l) = l.
Proof.
  induction r as [|r IH]; intros l Hl; simpl.
  - destruct l; [done|simpl in Hl; lia].
  - rewrite IH by (rewrite length_drop; lia). apply take_drop.
Qed.

Lemma reshape_ok l r k : length l = r * k → reshape l r k = Ok (chunks r k l).
Proof. intros Hl. unfold reshape. by rewrite Hl, Nat.eqb_refl. Qed.

Lemma reshape_mismatch l r k : length l ≠ r * k → is_ok (reshape l r k) = false.
Proof.
  intros Hl. unfold reshape.
  destruct (length l =? r * k) eqn:He; [by apply Nat.eqb_eq in He|done].
Qed.

Lemma length_meshgrid (x y : list X) : length (meshgrid x y) = length y * length x.
Proof.
  unfold meshgrid. induction y as [|yj y IH]; simpl; [done|].
  by rewrite length_app, length_map, IH.
Qed.
End Reshape.

Section SliceAssign.
Context {R : Type} `{!NumLib R}.
Implicit Types (c acc : cube R) (m : list (list R)).

Lemma assign_row_same i : ∀ (row : list (list R)) (mrow : list R),
  length row = length mrow → Forall (λ px, i < length px) row →
  omap (λ px : list R, px !! i) (zip_with (λ px v, <[i:=v]> px) row mrow) = mrow.
Proof.
  induction row as [|px row IH]; intros [|v mrow] Hlen Hpx; simpl in *; try done.
  inversion Hpx as [|? ? Hi Hrest]; subst.
  rewrite list_lookup_insert_eq by done. simpl. f_equal.
  apply IH; [lia|done].
Qed.

Lemma assign_row_other i j : i ≠ j → ∀ (row : list (list R)) (mrow : list R),
  length row = length mrow →
  omap (λ px : list R, px !! j) (zip_with (λ px v, <[i:=v]> px) row mrow)
  = omap (λ px : list R, px !! j) row.
Proof.
  intros Hne. induction row as [|px row IH]; intros [|v mrow] Hlen; simpl in *; try done.
  rewrite list_lookup_insert_ne by done.
  rewrite IH by lia. done.
Qed.

Lemma assign_same i k e : i < e → ∀ (cs : list (list (list R))) m,
  length cs = length m →
  Forall (λ row, length row = k ∧ Forall (λ px, length px = e) row) cs →
  Forall (λ mrow, length mrow = k) m →
  flat_map (λ row, omap (λ px : list R, px !! i) row) (assign i cs m) = concat m.
Proof.
  intros Hi. unfold assign.
  induction cs as [|row cs IH]; intros [|mrow m] Hlen Hcs Hm; simpl in *; try done.
  inversion Hcs as [|? ? [Hrow Hpx] Hcs']; subst.
  inversion Hm as [|? ? Hmrow Hm']; subst.
  rewrite assign_row_same.
  - f_equal. apply IH; [lia|done..].
  - lia.
  - eapply Forall_impl; [exact Hpx|]. simpl. intros px ->. done.
Qed.

Lemma assign_other i j k : i ≠ j → ∀ (cs : list (list (list R))) m,
  length cs = length m →
  Forall (λ row : list (list R), length row = k) cs →
  Forall (λ mrow, length mrow = k) m →
  flat_map (λ row, omap (λ px : list R, px !! j) row) (assign i cs m)
  = flat_map (λ row, omap (λ px : list R, px !! j) row) cs.
Proof.
  intros Hne. unfold assign.
  induction cs as [|row cs IH]; intros [|mrow m] Hlen Hcs Hm; simpl in *; try done.
  inversion Hcs as [|? ? Hrow Hcs']; subst.
  inversion Hm as [|? ? Hmrow Hm']; subst.
  rewrite assign_row_other by (done || lia).
  f_equal. apply IH; [lia|done..].
Qed.

Lemma assign_wf i k e : ∀ (cs : list (list (list R))) m,
  length cs = length m →
  Forall (λ row, length row = k ∧ Forall (λ px, length px = e) row) cs →
  Forall (λ mrow, length mrow = k) m →
  length (assign i cs m) = length cs ∧
  Forall (λ row, length row = k ∧ Forall (λ px, length px = e) row) (assign i cs m).
Proof.
  unfold assign.
  induction cs as [|row cs IH]; intros [|mrow m] Hlen Hcs Hm; simpl in *; try done.
  inversion Hcs as [|? ? [Hrow Hpx] Hcs']; subst.
  inversion Hm as [|? ? Hmrow Hm']; subst.
  destruct (IH m ltac:(lia) Hcs' Hm') as [IHlen IHrows].
  split; [by rewrite IHlen|]. constructor; [|done]. split.
  - rewrite length_zip_with_l_eq; [done|lia].
  - clear -Hpx. revert mrow.
    induction Hpx as [|px row Hp Hrow IHrow]; intros [|v mrow]; simpl;
      constructor; [by rewrite length_insert|apply IHrow].
Qed.

Lemma wf_rows_length c :
  cube_wf c → Forall (λ row : list (list R), length row = ncol c) (cells c).
Proof. intros [_ Hrows]. eapply Forall_impl; [exact Hrows|]. by intros row [? _]. Qed.

Lemma set_slice_wf acc i m :
  cube_wf acc → length m = nrow acc → Forall (λ mrow, length mrow = ncol acc) m →
  cube_wf (set_slice acc i m).
Proof.
  intros [Hlen Hrows] Hm Hmrows.
  destruct (assign_wf i (ncol acc) (nchan acc) (cells acc) m ltac:(lia) Hrows Hmrows)
    as [Hl Hr].
  split; simpl; [lia|done].
Qed.

Lemma set_slice_ravel_same acc i m :
  cube_wf acc → i < nchan acc →
  length m = nrow acc → Forall (λ mrow, length mrow = ncol acc) m →
  slice_ravel (set_slice acc i m) i = concat m.
Proof.
  intros [Hlen Hrows] Hi Hm Hmrows. unfold slice_ravel; simpl.
  apply (assign_same i (ncol acc) (nchan acc)); [done|lia|done..].
Qed.

Lemma set_slice_ravel_other acc i j m :
  cube_wf acc → i ≠ j →
  length m = nrow acc → Forall (λ mrow, length mrow = ncol acc) m →
  slice_ravel (set_slice acc i m) j = slice_ravel acc j.
Proof.
  intros Hwf Hne Hm Hmrows. unfold slice_ravel; simpl.
  apply (assign_other i j (ncol acc)); [done| |by apply wf_rows_length|done].
  destruct Hwf as [Hlen _]. lia.
Qed.

Lemma zeros_like_wf c : cube_wf (zeros_like c).
Proof.
  split; simpl; [by rewrite length_replicate|].
  apply Forall_replicate. split; [by rewrite length_replicate|].
  apply Forall_replicate. by rewrite length_replicate.
Qed.

Lemma length_column_of c i k :
  cube_wf c → i < nchan c → k < ncol c →
  length (omap (λ row : list (list R), px ← row !! k; px !! i) (cells c)) = nrow c.
Proof.
  intros [Hlen Hrows] Hi Hk. rewrite <- Hlen. clear Hlen.
  induction Hrows as [|row cs [Hrow Hpx] Hcs IH]; simpl; [done|].
  destruct (lookup_lt_is_Some_2 row k) as [px Hlk]; [lia|].
  rewrite Hlk; simpl.
  rewrite Forall_forall in Hpx.
  destruct (lookup_lt_is_Some_2 px i) as [v Hv];
    [rewrite (Hpx px) by (by eapply list_elem_of_lookup_2); lia|].
  rewrite Hv; simpl. f_equal. exact IH.
Qed.

Lemma length_slice_T_flat c i :
  cube_wf c → i < nchan c → length (slice_T_flat c i) = ncol c * nrow c.
Proof.
  intros Hwf Hi. unfold slice_T_flat.
  assert (∀ ks, Forall (λ k, k < ncol c) ks →
            length (flat_map (λ k, omap (λ row : list (list R), px ← row !! k; px !! i)
                                        (cells c)) ks)
            = length ks * nrow c) as Hks.
  { induction ks as [|k ks IH]; intros Hf; simpl; [done|].
    inversion Hf; subst.
    rewrite length_app, length_column_of by done. rewrite IH by done. done. }
  rewrite Hks, length_seq; [done|].
  apply Forall_seq. intros j Hj. lia.
Qed.
End SliceAssign.

Section SharedGrid.
Context {R : Type} `{!NumLib R}.
Implicit Types (c acc : cube R) (xd yd : list R).

Lemma min_max_ok (v : list R) :
  v ≠ [] → ∃ lo hi, min_max v = Ok (lo, hi).
Proof. destruct v as [|a v]; [done|]. intros _. by eexists _, _. Qed.

Lemma min_max_empty : is_ok (min_max ([] : list R)) = false.
Proof. done. Qed.

(** The loop of the 1-d branch: it returns, and slice [i] of its result is
    what [griddata] gave for slice [i] of the input. *)
Lemma resample_shared_spec c xd yd grid :
  cube_wf c →
  length xd = nrow c * ncol c → length yd = nrow c * ncol c →
  0 < nrow c * ncol c →
  length grid = ncol c * nrow c →
  ∀ idx acc,
    Forall (λ i, i < nchan c) idx → NoDup idx →
    cube_wf acc → shape acc = shape c →
    ∃ out,
      resample_shared c xd yd grid idx acc = Ok out ∧
      cube_wf out ∧ shape out = shape c ∧
      (∀ i, i ∈ idx →
            griddata (zip xd yd) (slice_T_flat c i) grid Nearest
            = Ok (slice_ravel out i)) ∧
      (∀ j, j ∉ idx → slice_ravel out j = slice_ravel acc j).
Proof.
  intros Hwf Hx Hy Hpos Hgrid.
  induction idx as [|i rest IH]; intros acc Hidx Hnd Hacc Hshape.
  - exists acc. do 3 (split; [done|]). split; [|done].
    intros i Hi. by apply elem_of_nil in Hi.
  - inversion Hidx as [|? ? Hi Hrest]; subst.
    apply NoDup_cons in Hnd as [Hnotin Hnd].
    injection Hshape as Hr Hk He.
    simpl. unfold coords_from_arrays. rewrite Hx, Hy, Nat.eqb_refl. simpl.
    assert (length (zip xd yd) = nrow c * ncol c) as Hzip
      by (rewrite length_zip; lia).
    pose proof (griddata_nearest (zip xd yd) (slice_T_flat c i) grid) as Hnear.
    destruct (griddata (zip xd yd) (slice_T_flat c i) grid Nearest) as [g|e] eqn:Hg.
    2:{ exfalso. enough (is_ok (@Raise (list R) e) = true) by done.
        apply Hnear.
        - intros Hnil. rewrite Hnil in Hzip. simpl in Hzip. lia.
        - rewrite Hzip, length_slice_T_flat by done. lia. }
    clear Hnear. simpl.
    pose proof (griddata_length _ _ _ _ _ Hg) as Hlen.
    assert (length g = nrow c * ncol c) as Hlen' by lia.
    rewrite (reshape_ok g) by done. simpl.
    assert (length (chunks (nrow c) (ncol c) g) = nrow acc) as Hm1
      by (rewrite chunks_length; lia).
    assert (Forall (λ mrow, length mrow = ncol acc) (chunks (nrow c) (ncol c) g)) as Hm2
      by (rewrite Hk; by apply chunks_rows).
    destruct (IH (set_slice acc i (chunks (nrow c) (ncol c) g))) as
      (out & Hout & Hwfout & Hshout & Hin & Hother); [done|done| | |].
    + by apply set_slice_wf.
    + unfold shape; simpl. by rewrite Hr, Hk, He.
    + exists out. do 3 (split; [done|]). split.
      * intros j Hj. apply elem_of_cons in Hj as [->|Hj]; [|by apply Hin].
        rewrite (Hother i Hnotin).
        rewrite set_slice_ravel_same by (done || lia).
        by rewrite concat_chunks.
      * intros j Hj. apply not_elem_of_cons in Hj as [Hne Hj].
        rewrite (Hother j Hj).
        by apply set_slice_ravel_other.
Qed.
End SharedGrid.

(** C7 (amended): for a cube of shape (R, C, E) and 1-d coordinate
    descriptors that each hold exactly R*C coordinates (R*C >= 1, one per
    pixel), [interpolate_absdata_flat] returns a cube of the same shape in
    which every slice is what [griddata] gives with method 'nearest' on one
    shared grid, the mesh of [linspace(min x, max x, R)] and
    [linspace(min y, max y, C)]; for 1-d descriptors of any other length it
    raises before any slice is resampled. *)
Theorem interpolate_flat_shared_grid_nearest {R} `{!NumLib R} :
  (∀ (c : cube R) (xd yd : list R),
      cube_wf c →
      length xd = nrow c * ncol c → length yd = nrow c * ncol c →
      0 < nrow c * ncol c →
      ∃ x_min x_max y_min y_max out,
        min_max xd = Ok (x_min, x_max) ∧ min_max yd = Ok (y_min, y_max) ∧
        interpolate_absdata_flat c (Arr1 xd) (Arr1 yd) true = Ok out ∧
        shape out = shape c ∧ cube_wf out ∧
        ∀ i, i < nchan c →
             griddata (zip xd yd) (slice_T_flat c i)
                      (meshgrid (linspace x_min x_max (nrow c))
                                (linspace y_min y_max (ncol c)))
                      Nearest
             = Ok (slice_ravel out i)) ∧
  (∀ (c : cube R) (xd yd : list R),
      length xd ≠ nrow c * ncol c ∨ length yd ≠ nrow c * ncol c →
      is_ok (interpolate_absdata_flat c (Arr1 xd) (Arr1 yd) true) = false).
Proof.
  split.
  - intros c xd yd Hwf Hx Hy Hpos.
    destruct (min_max_ok xd) as (x_min & x_max & Hmx);
      [intros ->; simpl in Hx; lia|].
    destruct (min_max_ok yd) as (y_min & y_max & Hmy);
      [intros ->; simpl in Hy; lia|].
    set (grid := meshgrid (linspace x_min x_max (nrow c)) (linspace y_min y_max (ncol c))).
    destruct (resample_shared_spec c xd yd grid Hwf Hx Hy Hpos) with
      (idx := seq 0 (nchan c)) (acc := zeros_like c)
      as (out & Hout & Hwfout & Hshout & Hin & _).
    + unfold grid. by rewrite length_meshgrid, !linspace_length.
    + apply Forall_seq. intros j Hj. lia.
    + apply NoDup_seq.
    + apply zeros_like_wf.
    + done.
    + exists x_min, x_max, y_min, y_max, out.
      split; [done|]. split; [done|]. split.
      * unfold interpolate_absdata_flat, shared_grid, extent.
        rewrite Hmx, Hmy. simpl.
        rewrite !reshape_ok by done. simpl. exact Hout.
      * split; [done|]. split; [done|].
        intros i Hi. apply Hin. apply elem_of_seq. lia.
  - intros c xd yd Hbad.
    unfold interpolate_absdata_flat.
    destruct (shared_grid c (Arr1 xd) (Arr1 yd)) as [grid|]; simpl; [|done].
    destruct (reshape xd (nrow c) (ncol c)) as [xx_new|] eqn:Hxx; simpl; [|done].
    destruct (reshape yd (nrow c) (ncol c)) as [yy_new|] eqn:Hyy; simpl; [|done].
    exfalso. destruct Hbad as [Hbad|Hbad].
    + apply (reshape_mismatch xd) in Hbad. by rewrite Hxx in Hbad.
    + apply (reshape_mismatch yd) in Hbad. by rewrite Hyy in Hbad.
Qed.

Lemma interpolate_flat_shared_grid_nearest_witness :
  (∃ x_min x_max y_min y_max out,
      min_max [0; 1; 0; 1]%Z = Ok (x_min, x_max) ∧
      min_max [0; 0; 1; 1]%Z = Ok (y_min, y_max) ∧
      interpolate_absdata_flat (Cube 2 2 1 [[[7%Z]; [0%Z]]; [[8%Z]; [9%Z]]])
                               (Arr1 [0; 1; 0; 1]%Z) (Arr1 [0; 0; 1; 1]%Z) true = Ok out ∧
      shape out = (2, 2, 1) ∧ cube_wf out ∧
      ∀ i, i < 1 →
           griddata (zip [0; 1; 0; 1]%Z [0; 0; 1; 1]%Z)
                    (slice_T_flat (Cube 2 2 1 [[[7%Z]; [0%Z]]; [[8%Z]; [9%Z]]]) i)
                    (meshgrid (linspace x_min x_max 2) (linspace y_min y_max 2))
                    Nearest
           = Ok (slice_ravel out i)) ∧
  is_ok (interpolate_absdata_flat (Cube 2 2 1 [[[7%Z]; [0%Z]]; [[8%Z]; [9%Z]]])
                                  (Arr1 [0; 1]%Z) (Arr1 [0; 1]%Z) true) = false.
Proof.
  split.
  - refine (proj1 interpolate_flat_shared_grid_nearest
                  (Cube 2 2 1 [[[7%Z]; [0%Z]]; [[8%Z]; [9%Z]]])
                  [0; 1; 0; 1]%Z [0; 0; 1; 1]%Z _ _ _ _).
    + split; simpl; repeat constructor.
    + reflexivity.
    + reflexivity.
    + simpl. lia.
  - refine (proj2 interpolate_flat_shared_grid_nearest
                  (Cube 2 2 1 [[[7%Z]; [0%Z]]; [[8%Z]; [9%Z]]])
                  [0; 1]%Z [0; 1]%Z _).
    left. simpl. lia.
Defined.

(** C7 as stated fails: with 1-d descriptors that hold one coordinate per
    row and per column, as the data model describes them, the resampler
    raises at the reshape of line 178 and resamples nothing. *)
Lemma interpolate_flat_per_axis_coordinates_raise :
  interpolate_absdata_flat (Cube 2 2 1 [[[7%Z]; [0%Z]]; [[8%Z]; [9%Z]]])
                           (Arr1 [0; 1]%Z) (Arr1 [0; 1]%Z) true
  = Raise (ValueError "cannot reshape array") ∧
  ¬ ∃ out, interpolate_absdata_flat (Cube 2 2 1 [[[7%Z]; [0%Z]]; [[8%Z]; [9%Z]]])
                                    (Arr1 [0; 1]%Z) (Arr1 [0; 1]%Z) true = Ok out.
Proof.
  assert (interpolate_absdata_flat (Cube 2 2 1 [[[7%Z]; [0%Z]]; [[8%Z]; [9%Z]]])
                                   (Arr1 [0; 1]%Z) (Arr1 [0; 1]%Z) true
          = Raise (ValueError "cannot reshape array")) as Hraise
    by (vm_compute; reflexivity).
  split; [exact Hraise|]. intros [out Hout]. rewrite Hraise in Hout. discriminate Hout.
Qed.

(** The same cube with one coordinate pair per pixel. *)
Example interpolate_flat_sample :
  interpolate_absdata_flat (Cube 2 2 1 [[[7%Z]; [0%Z]]; [[8%Z]; [9%Z]]])
                           (Arr1 [0; 1; 0; 1]%Z) (Arr1 [0; 0; 1; 1]%Z) true
  = Ok (Cube 2 2 1 [[[7%Z]; [8%Z]]; [[0%Z]; [9%Z]]]).
Proof. vm_compute. reflexivity. Qed.

(** ** Registry tables *)

Section Tables.
Context {X : Type}.
Implicit Types (d : table X) (a t : string) (l : list X).

Lemma table_get_set d a t l d' :
  table_set d a t l = Some d' →
  ∀ a' t', table_get d' a' t'
           = if bool_decide ((a', t') = (a, t)) then Some l else table_get d a' t'.
Proof.
  unfold table_set, table_get, table in *.
  destruct (d !! a) as [inner|] eqn:Ha; simpl; [|done].
  intros [= <-] a' t'. case_bool_decide as Hk.
  - injection Hk as -> ->. rewrite lookup_insert_eq. simpl. by rewrite lookup_insert_eq.
  - destruct (decide (a' = a)) as [->|Hne].
    + rewrite lookup_insert_eq, Ha. simpl. rewrite lookup_insert_ne; [done|congruence].
    + by rewrite lookup_insert_ne.
Qed.

Lemma table_set_is_Some d a t l l0 :
  table_get d a t = Some l0 → is_Some (table_set d a t l).
Proof.
  unfold table_set, table_get, table in *.
  destruct (d !! a) as [inner|]; simpl; [eauto|done].
Qed.

Lemma table_append_spec d a t l x :
  table_get d a t = Some l →
  ∃ d', table_append d a t x = Some d' ∧
        ∀ a' t', table_get d' a' t'
                 = if bool_decide ((a', t') = (a, t)) then Some (l ++ [x])
                   else table_get d a' t'.
Proof.
  intros Hget. unfold table_append. rewrite Hget. simpl.
  destruct (table_set_is_Some d a t (l ++ [x]) l Hget) as [d' Hset].
  exists d'. split; [done|]. by apply table_get_set.
Qed.

Lemma table_get_empty a t :
  table_get (@empty_table X) a t
  = if bool_decide (a ∈ actions ∧ t ∈ data_types) then Some [] else None.
Proof.
  assert (∀ (inner : gmap string (list X)),
            inner = list_to_map (map (λ t, (t, @nil X)) data_types) →
            inner !! t = if bool_decide (t ∈ data_types) then Some [] else None) as Hinner.
  { intros inner ->. unfold data_types. simpl.
    case_bool_decide as Ht.
    - rewrite !elem_of_cons, elem_of_nil in Ht.
      destruct Ht as [->|[->|[->|[->|[]]]]]; by simplify_map_eq.
    - rewrite !elem_of_cons, elem_of_nil in Ht.
      rewrite !lookup_insert_ne by (intros <-; apply Ht; auto 10). apply lookup_empty. }
  unfold table_get, empty_table, table.
  set (inner := list_to_map (map (λ t, (t, @nil X)) data_types)) in *.
  unfold actions. simpl.
  destruct (decide (a ∈ ["read"; "write"])) as [Ha|Ha].
  - assert ((<["read":=inner]> (<["write":=inner]> ∅) : gmap string (gmap string (list X)))
              !! a = Some inner) as ->.
    { rewrite !elem_of_cons, elem_of_nil in Ha.
      destruct Ha as [->|[->|[]]]; by simplify_map_eq. }
    simpl. rewrite (Hinner inner eq_refl).
    case_bool_decide as Ht.
    + by rewrite bool_decide_eq_true_2.
    + rewrite bool_decide_eq_false_2; [done|tauto].
  - rewrite bool_decide_eq_false_2 by tauto.
    rewrite !elem_of_cons, elem_of_nil in Ha.
    rewrite !lookup_insert_ne by (intros <-; apply Ha; auto 10). by rewrite lookup_empty.
Qed.
End Tables.

Lemma for_each_app {A S} (body : A → S → option S) (l1 l2 : list A) (s : S) :
  for_each body (l1 ++ l2) s = (s' ← for_each body l1 s; for_each body l2 s').
Proof.
  revert s. induction l1 as [|a l1 IH]; intros s; simpl; [done|].
  destruct (body a s) as [s'|]; simpl; [apply IH|done].
Qed.

Lemma for_each_map {A B S} (f : B → A) (body : A → S → option S) (l : list B) (s : S) :
  for_each body (map f l) s = for_each (λ b, body (f b)) l s.
Proof.
  revert s. induction l as [|b l IH]; intros s; simpl; [done|].
  destruct (body (f b) s) as [s'|]; simpl; [apply IH|done].
Qed.

(** Two nested loops are one loop over the pairs. *)
Lemma for_each_nested {A B S} (body : A → B → S → option S)
    (la : list A) (lb : list B) (s : S) :
  for_each (λ a, for_each (body a) lb) la s
  = for_each (λ k, body k.1 k.2) (list_prod la lb) s.
Proof.
  revert s. induction la as [|a la IH]; intros s; [done|].
  cbn [list_prod for_each]. rewrite for_each_app, for_each_map. cbn [fst snd].
  destruct (for_each (body a) lb s) as [s'|]; simpl; [apply IH|done].
Qed.

Section Register.
Context {R : Type}.
Implicit Types (P : Plugin.t R) (tb : tables R) (k : string * string)
  (v : list string * list (Plugin.t R) * list string).

Lemma getattr_types_action P a :
  a ∈ actions → is_Some (getattr_types P (a +:+ "_types")).
Proof.
  unfold actions. rewrite !elem_of_cons, elem_of_nil.
  intros [->|[->|[]]]; vm_compute; eauto.
Qed.

Lemma keys_action k : k ∈ keys → k.1 ∈ actions.
Proof.
  unfold keys. rewrite list_elem_of_In. destruct k as [a t].
  rewrite in_prod_iff. intros [Ha _]. by apply list_elem_of_In.
Qed.

Lemma elem_of_keys a t : (a, t) ∈ keys ↔ a ∈ actions ∧ t ∈ data_types.
Proof. unfold keys. by rewrite list_elem_of_In, in_prod_iff, <- !list_elem_of_In. Qed.

Lemma NoDup_keys : NoDup keys.
Proof. apply (bool_decide_unpack (NoDup keys)). by vm_compute. Qed.

Lemma add_filter_spec a t ext (sf : table string) l :
  table_get sf a t = Some l →
  ∃ sf', add_filter a t ext sf = Some sf' ∧
         ∀ a' t', table_get sf' a' t'
                  = if bool_decide ((a', t') = (a, t)) then Some (add_new l ext)
                    else table_get sf a' t'.
Proof.
  intros Hget. unfold add_filter, add_new. rewrite Hget. simpl.
  case_bool_decide as Hin.
  - exists sf. split; [done|]. intros a' t'. case_bool_decide as Hk; [|done].
    by injection Hk as -> ->.
  - by apply table_append_spec.
Qed.

Lemma add_filters_spec a t exts : ∀ (sf : table string) l,
  table_get sf a t = Some l →
  ∃ sf', for_each (add_filter a t) exts sf = Some sf' ∧
         ∀ a' t', table_get sf' a' t'
                  = if bool_decide ((a', t') = (a, t)) then Some (foldl add_new l exts)
                    else table_get sf a' t'.
Proof.
  induction exts as [|ext exts IH]; intros sf l Hget; cbn [for_each foldl].
  - exists sf. split; [done|]. intros a' t'. case_bool_decide as Hk; [|done].
    by injection Hk as -> ->.
  - destruct (add_filter_spec a t ext sf l Hget) as (sf1 & -> & Hsf1).
    cbn [mbind option_bind].
    destruct (IH sf1 (add_new l ext)) as (sf' & Hloop & Hsf').
    { by rewrite Hsf1, bool_decide_eq_true_2. }
    exists sf'. split; [done|]. intros a' t'. rewrite Hsf'.
    case_bool_decide as Hk; [done|]. rewrite Hsf1. by rewrite bool_decide_eq_false_2.
Qed.

(** The innermost loop body touches one key only. *)
Lemma register_type_spec P k tb v :
  k.1 ∈ actions → holds tb k v →
  ∃ tb', register_type P k.1 k.2 tb = Some tb' ∧
         holds tb' k (register_entry P k v) ∧
         ∀ k', k' ≠ k → view tb' k' = view tb k'.
Proof.
  intros Ha Hv. unfold holds, view in Hv. injection Hv as Hsf Hsp Hfl.
  unfold register_type, register_entry, supports.
  destruct (getattr_types_action P k.1 Ha) as [types ->]. simpl.
  case_bool_decide as Ht.
  - destruct (table_append_spec (filter_list tb) k.1 k.2 v.2 (filter_entry P) Hfl)
      as (fl' & -> & Hfl').
    destruct (table_append_spec (supported_plugins tb) k.1 k.2 v.1.2 P Hsp)
      as (sp' & -> & Hsp').
    destruct (add_filters_spec k.1 k.2 (Plugin.extension P) (supported_filters tb) v.1.1 Hsf)
      as (sf' & -> & Hsf').
    simpl. eexists. split; [done|]. split.
    + unfold holds, view; simpl.
      by rewrite Hsf', Hsp', Hfl', !bool_decide_eq_true_2 by by destruct k.
    + intros k' Hne. unfold view; simpl.
      by rewrite Hsf', Hsp', Hfl', !bool_decide_eq_false_2
        by (destruct k, k'; simpl; congruence).
  - exists tb. split; [done|]. split; [|done].
    unfold holds, view. by rewrite Hsf, Hsp, Hfl.
Qed.

(** One plugin, registered under a list of distinct keys. *)
Lemma register_keys_spec P (ks : list (string * string)) : ∀ tb,
  NoDup ks → (∀ k, k ∈ ks → k.1 ∈ actions) →
  (∀ k, k ∈ ks → ∃ v, holds tb k v) →
  ∃ tb', for_each (λ k, register_type P k.1 k.2) ks tb = Some tb' ∧
         (∀ k v, k ∈ ks → holds tb k v → holds tb' k (register_entry P k v)) ∧
         (∀ k, k ∉ ks → view tb' k = view tb k).
Proof.
  induction ks as [|k ks IH]; intros tb Hnd Hact Hpresent; simpl.
  - exists tb. split; [done|]. split; [|done]. intros k v Hk. by apply elem_of_nil in Hk.
  - apply NoDup_cons in Hnd as [Hnotin Hnd].
    destruct (Hpresent k) as [v0 Hv0]; [by left|].
    destruct (register_type_spec P k tb v0) as (tb1 & -> & Hk1 & Hother1);
      [apply Hact; by left|done|].
    simpl.
    destruct (IH tb1 Hnd) as (tb' & Hloop & Hin & Hout).
    { intros k' Hk'. apply Hact. by right. }
    { intros k' Hk'. destruct (Hpresent k') as [v' Hv']; [by right|].
      exists v'. unfold holds. rewrite Hother1; [done|]. by intros ->. }
    exists tb'. split; [done|]. split.
    + intros k' v Hk' Hv. apply elem_of_cons in Hk' as [->|Hk'].
      * unfold holds. rewrite (Hout k Hnotin).
        unfold holds in Hv, Hv0. rewrite Hv0 in Hv. injection Hv as H1 H2 H3.
        destruct v as [[? ?] ?], v0 as [[? ?] ?]; simpl in *; subst. exact Hk1.
      * apply Hin; [done|]. unfold holds. rewrite Hother1; [done|]. by intros ->.
    + intros k' Hk'. apply not_elem_of_cons in Hk' as [Hne Hk'].
      rewrite (Hout k' Hk'). by apply Hother1.
Qed.

Lemma register_plugin_spec P tb :
  (∀ k, k ∈ keys → ∃ v, holds tb k v) →
  ∃ tb', register_plugin P tb = Some tb' ∧
         (∀ k v, k ∈ keys → holds tb k v → holds tb' k (register_entry P k v)) ∧
         (∀ k, k ∉ keys → view tb' k = view tb k).
Proof.
  intros Hpresent. unfold register_plugin.
  rewrite (for_each_nested (λ a t, register_type P a t)).
  apply (register_keys_spec P keys tb NoDup_keys); [apply keys_action|done].
Qed.

(** The whole registration loop, from tables that hold [v0 k] under [k]. *)
Lemma register_all_spec (plugins : list (Plugin.t R)) : ∀ tb
    (v0 : string * string → list string * list (Plugin.t R) * list string),
  (∀ k, k ∈ keys → holds tb k (v0 k)) →
  ∃ tb', for_each register_plugin plugins tb = Some tb' ∧
         (∀ k, k ∈ keys → holds tb' k (foldl (λ v P, register_entry P k v) (v0 k) plugins)) ∧
         (∀ k, k ∉ keys → view tb' k = view tb k).
Proof.
  induction plugins as [|P plugins IH]; intros tb v0 Hv0; simpl.
  - exists tb. by repeat split.
  - destruct (register_plugin_spec P tb) as (tb1 & -> & Hin1 & Hout1); [by eauto|].
    simpl.
    destruct (IH tb1 (λ k, register_entry P k (v0 k))) as (tb' & Hloop & Hin & Hout).
    { intros k Hk. apply Hin1; [done|]. by apply Hv0. }
    exists tb'. split; [done|]. split; [done|].
    intros k Hk. rewrite (Hout k Hk). by apply Hout1.
Qed.

Lemma register_entries_closed (plugins : list (Plugin.t R)) k : ∀ v,
  foldl (λ v P, register_entry P k v) v plugins
  = (foldl (λ acc P, foldl add_new acc (Plugin.extension P)) v.1.1
           (supporting plugins k.1 k.2),
     v.1.2 ++ supporting plugins k.1 k.2,
     v.2 ++ map filter_entry (supporting plugins k.1 k.2)).
Proof.
  induction plugins as [|P plugins IH]; intros [[sf sp] fl]; simpl.
  - by rewrite !app_nil_r.
  - rewrite IH. unfold register_entry, supporting. simpl.
    destruct (supports k.1 k.2 P); simpl; [|done].
    by rewrite <- !app_assoc.
Qed.
End Register.

Section Finish.
Context {R : Type}.

Lemma finish_filter_list_spec (sf fl : table string) t exts old :
  table_get sf "read" t = Some exts →
  table_get fl "read" t = Some old →
  ∃ fl', finish_filter_list sf t fl = Some fl' ∧
         ∀ a' t', table_get fl' a' t'
                  = if bool_decide ((a', t') = ("read", t))
                    then Some (("Supported Formats (" +:+ join " " exts +:+ ")")
                               :: old ++ ["All files (*.*)"])
                    else table_get fl a' t'.
Proof.
  intros Hsf Hfl. unfold finish_filter_list. rewrite Hsf, Hfl. cbn [mbind option_bind].
  destruct (table_set_is_Some fl "read" t
              (["Supported Formats (" +:+ join " " exts +:+ ")"] ++ old) old Hfl)
    as [fl1 Hset].
  rewrite Hset. cbn [mbind option_bind].
  pose proof (table_get_set _ _ _ _ _ Hset) as Hfl1.
  destruct (table_append_spec fl1 "read" t
              (["Supported Formats (" +:+ join " " exts +:+ ")"] ++ old)
              "All files (*.*)") as (fl' & -> & Hfl').
  { by rewrite Hfl1, bool_decide_eq_true_2. }
  exists fl'. split; [done|]. intros a' t'. rewrite Hfl'.
  case_bool_decide as Hk; [done|]. rewrite Hfl1. by rewrite bool_decide_eq_false_2.
Qed.

Lemma finish_loop_spec (sf : table string) (ts : list string) : ∀ (fl : table string),
  NoDup ts →
  (∀ t, t ∈ ts → is_Some (table_get sf "read" t) ∧ is_Some (table_get fl "read" t)) →
  ∃ fl', for_each (finish_filter_list sf) ts fl = Some fl' ∧
         ∀ a t, table_get fl' a t
                = if bool_decide (a = "read" ∧ t ∈ ts)
                  then exts ← table_get sf "read" t;
                       old ← table_get fl "read" t;
                       Some (("Supported Formats (" +:+ join " " exts +:+ ")")
                             :: old ++ ["All files (*.*)"])
                  else table_get fl a t.
Proof.
  induction ts as [|t ts IH]; intros fl Hnd Hpresent; cbn [for_each].
  - exists fl. split; [done|]. intros a t. rewrite bool_decide_eq_false_2; [done|].
    intros [_ Ht]. by apply elem_of_nil in Ht.
  - apply NoDup_cons in Hnd as [Hnotin Hnd].
    destruct (Hpresent t) as [[exts Hsf] [old Hfl]]; [by left|].
    destruct (finish_filter_list_spec sf fl t exts old Hsf Hfl) as (fl1 & -> & Hfl1).
    cbn [mbind option_bind].
    destruct (IH fl1 Hnd) as (fl' & Hloop & Hfl').
    { intros t' Ht'. destruct (Hpresent t') as [Hs Hf]; [by right|].
      split; [done|]. rewrite Hfl1, bool_decide_eq_false_2; [done|].
      intros [= ->]. done. }
    exists fl'. split; [done|]. intros a t'. rewrite Hfl'.
    case_bool_decide as Hk.
    + destruct Hk as [-> Ht']. rewrite bool_decide_eq_true_2 by (split; [done|by right]).
      rewrite Hfl1, bool_decide_eq_false_2; [done|]. intros [= ->]. done.
    + rewrite Hfl1. case_bool_decide as Hk1.
      * injection Hk1 as -> ->. rewrite bool_decide_eq_true_2 by (split; [done|by left]).
        by rewrite Hsf, Hfl.
      * rewrite bool_decide_eq_false_2; [done|].
        intros [-> Ht']. apply elem_of_cons in Ht' as [->|Ht']; [by apply Hk1|].
        by apply Hk.
Qed.

(** The three tables in closed form. *)
Lemma build_tables_closed (plugins : list (Plugin.t R)) :
  ∃ tb, build_tables plugins = Some tb ∧
    ∀ a t,
      table_get (supported_plugins tb) a t
      = (if bool_decide (a ∈ actions ∧ t ∈ data_types)
         then Some (supporting plugins a t) else None) ∧
      table_get (supported_filters tb) a t
      = (if bool_decide (a ∈ actions ∧ t ∈ data_types)
         then Some (union_extensions (supporting plugins a t)) else None) ∧
      table_get (filter_list tb) a t
      = (if bool_decide (a ∈ actions ∧ t ∈ data_types)
         then Some (if bool_decide (a = "read")
                    then ("Supported Formats ("
                            +:+ join " " (union_extensions (supporting plugins "read" t))
                            +:+ ")")
                         :: map filter_entry (supporting plugins "read" t)
                         ++ ["All files (*.*)"]
                    else map filter_entry (supporting plugins a t))
         else None).
Proof.
  unfold build_tables.
  destruct (register_all_spec plugins (Tables empty_table empty_table empty_table)
              (λ _, ([], [], []))) as (tb & Hreg & Hin & Hout).
  { intros [a t] Hk. apply elem_of_keys in Hk.
    unfold holds, view; simpl. by rewrite !table_get_empty, !bool_decide_eq_true_2. }
  rewrite Hreg. cbn [mbind option_bind].
  assert (∀ a t,
            view tb (a, t)
            = if bool_decide (a ∈ actions ∧ t ∈ data_types)
              then (Some (union_extensions (supporting plugins a t)),
                    Some (supporting plugins a t),
                    Some (map filter_entry (supporting plugins a t)))
              else (None, None, None)) as Hview.
  { intros a t. case_bool_decide as Hk.
    - apply elem_of_keys in Hk. specialize (Hin (a, t) Hk).
      rewrite register_entries_closed in Hin. exact Hin.
    - rewrite Hout by (by rewrite elem_of_keys).
      unfold view; simpl. by rewrite !table_get_empty, !bool_decide_eq_false_2. }
  assert (∀ t, t ∈ data_types → ("read" ∈ actions ∧ t ∈ data_types)) as Hread.
  { intros t Ht. split; [|done]. unfold actions. by left. }
  destruct (finish_loop_spec (supported_filters tb) data_types (filter_list tb))
    as (fl' & -> & Hfl').
  { apply (bool_decide_unpack (NoDup data_types)). by vm_compute. }
  { intros t Ht. pose proof (Hview "read" t) as Hv.
    rewrite bool_decide_eq_true_2 in Hv by by apply Hread.
    unfold view in Hv; simpl in Hv. injection Hv as -> _ ->. eauto. }
  cbn [mbind option_bind]. eexists. split; [done|]. intros a t. simpl.
  pose proof (Hview a t) as Hv. unfold view in Hv; simpl in Hv.
  split; [|split].
  - case_bool_decide; by injection Hv as _ -> _.
  - case_bool_decide; by injection Hv as -> _ _.
  - rewrite Hfl'. destruct (decide (a ∈ actions ∧ t ∈ data_types)) as [Hkey|Hkey].
    + rewrite (bool_decide_eq_true_2 _ Hkey) in Hv |- *. injection Hv as _ _ Hflv.
      destruct (decide (a = "read")) as [Ha|Ha].
      * subst a. rewrite !bool_decide_eq_true_2 by (done || by destruct Hkey).
        pose proof (Hview "read" t) as Hv'.
        rewrite (bool_decide_eq_true_2 _ Hkey) in Hv'.
        unfold view in Hv'; simpl in Hv'. injection Hv' as -> _ ->. done.
      * rewrite !bool_decide_eq_false_2 by (done || by intros [? _]). exact Hflv.
    + rewrite (bool_decide_eq_false_2 _ Hkey) in Hv |- *. injection Hv as _ _ Hflv.
      rewrite bool_decide_eq_false_2; [done|].
      intros [-> Ht]. apply Hkey. by apply Hread.
Qed.
End Finish.

Lemma add_new_spec (acc : list string) (ext x : string) :
  (NoDup acc → NoDup (add_new acc ext)) ∧
  (x ∈ add_new acc ext ↔ x ∈ acc ∨ x = ext).
Proof.
  unfold add_new. case_bool_decide as Hin.
  - split; [done|]. split; [by left|]. by intros [?| ->].
  - split.
    + intros Hnd. apply NoDup_app. split; [done|]. split.
      * intros y Hy Hy'. apply list_elem_of_singleton in Hy'. by subst.
      * apply NoDup_singleton.
    + rewrite elem_of_app, list_elem_of_singleton. done.
Qed.

Lemma add_news_spec (exts : list string) : ∀ (acc : list string) (x : string),
  (NoDup acc → NoDup (foldl add_new acc exts)) ∧
  (x ∈ foldl add_new acc exts ↔ x ∈ acc ∨ x ∈ exts).
Proof.
  induction exts as [|ext exts IH]; intros acc x; simpl.
  - split; [done|]. split; [by left|]. intros [?|Hx]; [done|by apply elem_of_nil in Hx].
  - destruct (IH (add_new acc ext) x) as [IHnd IHin].
    destruct (add_new_spec acc ext x) as [Hnd Hin].
    split; [by auto|]. rewrite IHin, Hin, elem_of_cons. tauto.
Qed.

Lemma union_extensions_spec {R} (plugins : list (Plugin.t R)) :
  NoDup (union_extensions plugins) ∧
  ∀ x, x ∈ union_extensions plugins ↔ ∃ P, P ∈ plugins ∧ x ∈ Plugin.extension P.
Proof.
  unfold union_extensions.
  assert (∀ acc : list string,
            (NoDup acc →
             NoDup (foldl (λ acc P, foldl add_new acc (Plugin.extension P)) acc plugins)) ∧
            ∀ x, x ∈ foldl (λ acc P, foldl add_new acc (Plugin.extension P)) acc plugins
                 ↔ x ∈ acc ∨ ∃ P, P ∈ plugins ∧ x ∈ Plugin.extension P) as Hgen.
  { induction plugins as [|P plugins IH]; intros acc; simpl.
    - split; [done|]. intros x. split; [by left|].
      intros [?|(P & HP & _)]; [done|by apply elem_of_nil in HP].
    - destruct (IH (foldl add_new acc (Plugin.extension P))) as [IHnd IHin].
      split.
      + intros Hnd. apply IHnd. by apply (add_news_spec (Plugin.extension P) acc "").
      + intros x. rewrite IHin.
        rewrite (proj2 (add_news_spec (Plugin.extension P) acc x)).
        split.
        * intros [[?|Hx]|(Q & HQ & Hx)]; [by left| |].
          -- right. exists P. split; [by left|done].
          -- right. exists Q. split; [by right|done].
        * intros [?|(Q & HQ & Hx)]; [by left; left|].
          apply elem_of_cons in HQ as [->|HQ]; [by left; right|].
          right. by exists Q. }
  destruct (Hgen []) as [Hnd Hin]. split; [apply Hnd; constructor|].
  intros x. rewrite Hin. split; [|by right].
  intros [Hx|?]; [by apply elem_of_nil in Hx|done].
Qed.

(** X1: in the tables built from a registry, [supported_plugins[a][t]]
    holds, in registration order, exactly the plugins that list [t] in
    their [a_types], and any other action or data type is a missing key. *)
Theorem supported_plugins_lists_supporting {R} (plugins : list (Plugin.t R))
    (tb : tables R) (a t : string) :
  build_tables plugins = Some tb →
  table_get (supported_plugins tb) a t
  = if bool_decide (a ∈ actions ∧ t ∈ data_types)
    then Some (supporting plugins a t) else None.
Proof.
  intros Hbuild.
  destruct (build_tables_closed plugins) as (tb' & Hb & Hall).
  rewrite Hb in Hbuild. injection Hbuild as ->.
  by destruct (Hall a t) as (? & _ & _).
Qed.

Lemma supported_plugins_lists_supporting_witness :
  ∃ tb, build_tables Samples.registry = Some tb ∧
        table_get (supported_plugins tb) "read" "image"
        = (if bool_decide ("read" ∈ actions ∧ "image" ∈ data_types)
           then Some (supporting Samples.registry "read" "image") else None) ∧
        table_get (supported_plugins tb) "read" "movie"
        = (if bool_decide ("read" ∈ actions ∧ "movie" ∈ data_types)
           then Some (supporting Samples.registry "read" "movie") else None).
Proof.
  destruct (build_tables_closed Samples.registry) as (tb & Hb & _).
  exists tb. split; [exact Hb|]. split.
  - exact (supported_plugins_lists_supporting Samples.registry tb "read" "image" Hb).
  - exact (supported_plugins_lists_supporting Samples.registry tb "read" "movie" Hb).
Defined.

(** The plugins of the sample registry that read images, and a data type
    the tables do not know. *)
Example supported_plugins_sample :
  (tb ← build_tables Samples.registry;
   l ← table_get (supported_plugins tb) "read" "image"; Some (map Plugin.title l))
  = Some ["TIFF"] ∧
  (tb ← build_tables Samples.registry;
   l ← table_get (supported_plugins tb) "read" "movie"; Some (map Plugin.title l))
  = None.
Proof. split; vm_compute; reflexivity. Qed.

(** X2: for every data type the read filter list is the aggregate
    "Supported Formats (...)" entry built from [supported_filters], then one
    entry per plugin of [supported_plugins] at the next index, then
    "All files (*.*)"; the write filter list has the per-plugin entries
    only. *)
Theorem filter_list_follows_supported_plugins {R} (plugins : list (Plugin.t R))
    (tb : tables R) (t : string) :
  build_tables plugins = Some tb →
  t ∈ data_types →
  ∃ fl sf sp spw,
    table_get (filter_list tb) "read" t = Some fl ∧
    table_get (supported_filters tb) "read" t = Some sf ∧
    table_get (supported_plugins tb) "read" t = Some sp ∧
    table_get (supported_plugins tb) "write" t = Some spw ∧
    length fl = length sp + 2 ∧
    fl !! 0 = Some ("Supported Formats (" +:+ join " " sf +:+ ")") ∧
    (∀ i P, sp !! i = Some P → fl !! (S i) = Some (filter_entry P)) ∧
    fl !! (S (length sp)) = Some "All files (*.*)" ∧
    table_get (filter_list tb) "write" t = Some (map filter_entry spw).
Proof.
  intros Hbuild Ht.
  destruct (build_tables_closed plugins) as (tb' & Hb & Hall).
  rewrite Hb in Hbuild. injection Hbuild as ->.
  assert ("read" ∈ actions ∧ t ∈ data_types) as Hr by (split; [by left|done]).
  assert ("write" ∈ actions ∧ t ∈ data_types) as Hw by (split; [by right; left|done]).
  destruct (Hall "read" t) as (Hsp & Hsf & Hfl).
  destruct (Hall "write" t) as (Hspw & _ & Hflw).
  rewrite (bool_decide_eq_true_2 _ Hr) in Hsp, Hsf, Hfl.
  rewrite (bool_decide_eq_true_2 _ Hw) in Hspw, Hflw.
  rewrite bool_decide_eq_true_2 in Hfl by done.
  rewrite bool_decide_eq_false_2 in Hflw by done.
  eexists _, _, _, _. do 4 (split; [done|]).
  split; [|split; [done|split; [|split; [|done]]]].
  - simpl. rewrite length_app, length_map. simpl. lia.
  - intros i P Hi. simpl. rewrite lookup_app_l by (rewrite length_map; by eapply lookup_lt_Some).
    by rewrite lookup_map, Hi.
  - simpl. rewrite lookup_app_r by (by rewrite length_map).
    by rewrite length_map, Nat.sub_diag.
Qed.

(** X3: [supported_filters[a][t]] lists every extension of the plugins of
    [supported_plugins[a][t]], and nothing else, each exactly once. *)
Theorem supported_filters_is_duplicate_free_union {R} (plugins : list (Plugin.t R))
    (tb : tables R) (a t : string) :
  build_tables plugins = Some tb →
  a ∈ actions → t ∈ data_types →
  ∃ sf sp,
    table_get (supported_filters tb) a t = Some sf ∧
    table_get (supported_plugins tb) a t = Some sp ∧
    NoDup sf ∧
    ∀ ext, ext ∈ sf ↔ ∃ P, P ∈ sp ∧ ext ∈ Plugin.extension P.
Proof.
  intros Hbuild Ha Ht.
  destruct (build_tables_closed plugins) as (tb' & Hb & Hall).
  rewrite Hb in Hbuild. injection Hbuild as ->.
  destruct (Hall a t) as (Hsp & Hsf & _).
  rewrite bool_decide_eq_true_2 in Hsp, Hsf by done.
  eexists _, _. do 2 (split; [done|]).
  apply union_extensions_spec.
Qed.

Lemma filter_list_follows_supported_plugins_witness :
  ∃ tb fl sf sp spw,
    build_tables Samples.registry = Some tb ∧
    table_get (filter_list tb) "read" "stack" = Some fl ∧
    table_get (supported_filters tb) "read" "stack" = Some sf ∧
    table_get (supported_plugins tb) "read" "stack" = Some sp ∧
    table_get (supported_plugins tb) "write" "stack" = Some spw ∧
    length fl = length sp + 2 ∧
    fl !! 0 = Some ("Supported Formats (" +:+ join " " sf +:+ ")") ∧
    (∀ i P, sp !! i = Some P → fl !! (S i) = Some (filter_entry P)) ∧
    fl !! (S (length sp)) = Some "All files (*.*)" ∧
    table_get (filter_list tb) "write" "stack" = Some (map filter_entry spw).
Proof.
  destruct (build_tables_closed Samples.registry) as (tb & Hb & _).
  destruct (filter_list_follows_supported_plugins Samples.registry tb "stack" Hb)
    as (fl & sf & sp & spw & H).
  - unfold data_types. rewrite !elem_of_cons. auto.
  - exists tb, fl, sf, sp, spw. split; [exact Hb|exact H].
Defined.

Lemma supported_filters_is_duplicate_free_union_witness :
  ∃ tb sf sp,
    build_tables Samples.registry = Some tb ∧
    table_get (supported_filters tb) "read" "stack" = Some sf ∧
    table_get (supported_plugins tb) "read" "stack" = Some sp ∧
    NoDup sf ∧
    ∀ ext, ext ∈ sf ↔ ∃ P, P ∈ sp ∧ ext ∈ Plugin.extension P.
Proof.
  destruct (build_tables_closed Samples.registry) as (tb & Hb & _).
  destruct (supported_filters_is_duplicate_free_union Samples.registry tb "read" "stack" Hb)
    as (sf & sp & H).
  - unfold actions. rewrite !elem_of_cons. auto.
  - unfold data_types. rewrite !elem_of_cons. auto.
  - exists tb, sf, sp. split; [exact Hb|exact H].
Defined.

(** The tables of the sample registry. *)
Example filter_list_sample :
  (tb ← build_tables Samples.registry; table_get (filter_list tb) "read" "stack")
  = Some ["Supported Formats (*.hdf5 *.h5 *.tif *.tiff)"; "DataExchange (*.hdf5 *.h5)";
          "NeXus (*.hdf5)"; "TIFF (*.tif *.tiff)"; "All files (*.*)"] ∧
  (tb ← build_tables Samples.registry; table_get (filter_list tb) "write" "image")
  = Some ["TIFF (*.tif *.tiff)"] ∧
  (tb ← build_tables Samples.registry; table_get (filter_list tb) "read" "results")
  = Some ["Supported Formats ()"; "All files (*.*)"] ∧
  (tb ← build_tables Samples.registry; table_get (filter_list tb) "read" "movie") = None.
Proof. repeat split; vm_compute; reflexivity. Qed.

(** ** More on the dispatcher *)

Lemma find_app_first {A} (f : A → bool) (l1 l2 : list A) :
  find f (l1 ++ l2) = match find f l1 with Some x => Some x | None => find f l2 end.
Proof.
  induction l1 as [|a l1 IH]; simpl; [done|]. by destruct (f a).
Qed.

Lemma find_none_Forall {A} (f : A → bool) (l : list A) :
  find f l = None ↔ Forall (λ x, f x = false) l.
Proof.
  induction l as [|a l IH]; simpl.
  - split; [constructor|done].
  - destruct (f a) eqn:Hf.
    + split; [done|]. intros H. inversion H; congruence.
    + rewrite IH. split; [by constructor|]. intros H. by inversion H.
Qed.

Lemma find_some_elem {A} (f : A → bool) (l : list A) (x : A) :
  find f l = Some x → x ∈ l ∧ f x = true.
Proof.
  induction l as [|a l IH]; simpl; [done|].
  destruct (f a) eqn:Hf.
  - intros [= <-]. split; [by left|done].
  - intros H. destruct (IH H). split; [by right|done].
Qed.

(** X4: a provider returned by [identify] is registered, lists the file's
    extension and confirmed the file; [identify] returns None exactly when
    no registered provider both lists the extension and confirms. *)
Theorem identify_sound_and_complete {R} (plugins : list (Plugin.t R)) (filename : string) :
  (∀ P, identify plugins filename = Ok (Some P) →
        P ∈ plugins ∧ claims_ext P (splitext filename).2 = true ∧
        Plugin.identify P filename = true) ∧
  (identify plugins filename = Ok None ↔
   Forall (λ P, claims_ext P (splitext filename).2 && Plugin.identify P filename = false)
          plugins).
Proof.
  rewrite identify_find. unfold first_confirming. split.
  - intros P [= HP]. apply find_some_elem in HP as [Hin Hf].
    apply andb_true_iff in Hf as [? ?]. done.
  - rewrite <- find_none_Forall. split; [by intros [= ->]|by intros ->].
Qed.

(** X5: providers registered after the first confirming one do not matter,
    and a registry that yields nothing is transparent: dispatch over
    [pre ++ post] is dispatch over [pre], then over [post] if [pre] gave
    None. *)
Theorem identify_registration_order {R} (pre post : list (Plugin.t R)) (filename : string) :
  identify (pre ++ post) filename
  = (found ← identify pre filename;
     match found with
     | Some P => Ok (Some P)
     | None => identify post filename
     end).
Proof.
  rewrite !identify_find. unfold first_confirming. simpl.
  rewrite find_app_first. by destruct (find _ pre).
Qed.

Lemma identify_sound_and_complete_witness :
  Samples.nexus ∈ Samples.registry ∧
  claims_ext Samples.nexus (splitext "/data/scan.hdf5").2 = true ∧
  Plugin.identify Samples.nexus "/data/scan.hdf5" = true.
Proof.
  apply (proj1 (identify_sound_and_complete Samples.registry "/data/scan.hdf5")
               Samples.nexus).
  vm_compute. reflexivity.
Defined.

Lemma scan_trace {R} (filename ext : string) (plugins : list (Plugin.t R)) : ∀ i0,
  (∀ j, j ∈ (probe_until_confirmed filename ext plugins i0).2 →
        i0 ≤ j ∧
        ∃ P, plugins !! (j - i0) = Some P ∧ claims_ext P ext = true ∧
             (Plugin.identify P filename = false ∨
              (probe_until_confirmed filename ext plugins i0).1 = Returned P)) ∧
  StronglySorted lt (probe_until_confirmed filename ext plugins i0).2 ∧
  ((probe_until_confirmed filename ext plugins i0).1 = Exhausted →
   ∀ k P, plugins !! k = Some P → claims_ext P ext = true →
          (i0 + k) ∈ (probe_until_confirmed filename ext plugins i0).2).
Proof.
  induction plugins as [|P rest IH]; intros i0; simpl.
  - split; [|split; [constructor|done]]. intros j Hj. by apply elem_of_nil in Hj.
  - destruct (IH (S i0)) as (IHin & IHsorted & IHall).
    destruct (claims_ext P ext) eqn:Hc.
    + destruct (Plugin.identify P filename) eqn:Hp; simpl.
      * split; [|split; [repeat constructor|done]].
        intros j Hj. apply list_elem_of_singleton in Hj as ->.
        split; [done|]. exists P. rewrite Nat.sub_diag. by repeat split; [|right].
      * destruct (probe_until_confirmed filename ext rest (S i0)) as [e t] eqn:Hscan.
        simpl in *. split; [|split].
        -- intros j Hj. apply elem_of_cons in Hj as [->|Hj].
           ++ split; [done|]. exists P. rewrite Nat.sub_diag. by repeat split; [|left].
           ++ destruct (IHin j Hj) as (Hle & Q & HQ & HcQ & HpQ).
              split; [lia|]. exists Q. split; [|done].
              replace (j - i0) with (S (j - S i0)) by lia. done.
        -- constructor; [done|]. apply Forall_forall. intros j Hj.
           destruct (IHin j Hj) as [Hle _]. lia.
        -- intros He [|k] Q HQ HcQ.
           ++ rewrite Nat.add_0_r. by left.
           ++ right. replace (i0 + S k) with (S i0 + k) by lia. by eapply IHall.
    + split; [|split; [done|]].
      * intros j Hj. destruct (IHin j Hj) as (Hle & Q & HQ & HcQ & HpQ).
        split; [lia|]. exists Q. split; [|done].
        replace (j - i0) with (S (j - S i0)) by lia. done.
      * intros He [|k] Q HQ HcQ.
        -- simpl in HQ. injection HQ as ->. congruence.
        -- replace (i0 + S k) with (S i0 + k) by lia. by eapply IHall.
Qed.

(** X6: in a run of [identify] every probed provider lists the file's
    extension, no provider is probed twice (the probed indices increase),
    every probed provider declined unless it is the one returned, and when
    the loop runs to the end every provider listing the extension has been
    probed. *)
Theorem identify_probe_trace {R} (plugins : list (Plugin.t R)) (filename : string)
    (exit : loop_exit R) (probed : list nat) :
  identify_run plugins filename = Ok (exit, probed) →
  (∀ j, j ∈ probed →
        ∃ P, plugins !! j = Some P ∧ claims_ext P (splitext filename).2 = true ∧
             (Plugin.identify P filename = false ∨ exit = Returned P)) ∧
  StronglySorted lt probed ∧
  (exit = Exhausted →
   ∀ j P, plugins !! j = Some P → claims_ext P (splitext filename).2 = true → j ∈ probed).
Proof.
  rewrite identify_run_scan. intros [= Hscan].
  destruct (scan_trace filename (splitext filename).2 plugins 0) as (Hin & Hsorted & Hall).
  rewrite Hscan in Hin, Hsorted, Hall. simpl in *.
  split; [|split; [done|]].
  - intros j Hj. destruct (Hin j Hj) as (_ & P & HP & Hrest).
    exists P. by rewrite Nat.sub_0_r in HP.
  - intros He j P HP Hc. by apply (Hall He j P).
Qed.

Lemma identify_probe_trace_witness :
  (∀ j, j ∈ [0; 1] →
        ∃ P, Samples.registry !! j = Some P ∧
             claims_ext P (splitext "/data/scan.hdf5").2 = true ∧
             (Plugin.identify P "/data/scan.hdf5" = false ∨
              Returned Samples.nexus = Returned P)) ∧
  StronglySorted lt [0; 1] ∧
  (Returned Samples.nexus = Exhausted →
   ∀ j P, Samples.registry !! j = Some P →
          claims_ext P (splitext "/data/scan.hdf5").2 = true → j ∈ [0; 1]).
Proof.
  apply (identify_probe_trace Samples.registry "/data/scan.hdf5"
                              (Returned Samples.nexus) [0; 1]).
  vm_compute. reflexivity.
Defined.

(** ** More on discovery *)

(** X7: a candidate that fails with anything but ImportError stops
    discovery: the exception is raised and no later candidate is loaded,
    whatever had been registered before. *)
Theorem discover_stops_at_other_failure {R} (pre post : list (exec_result R))
    (e : exn) (plugins : list (Plugin.t R)) :
  Forall (λ m, is_fatal m = false) pre →
  is_fatal (@Failed R e) = true →
  discover (pre ++ Failed e :: post) plugins = Raise e.
Proof.
  intros Hpre He. revert plugins.
  induction pre as [|m pre IH]; intros plugins; simpl.
  - destruct e; try done.
  - inversion Hpre as [|? ? Hm Hpre']; subst.
    destruct m as [module|e']; simpl.
    + destruct (has_read module); by apply IH.
    + destruct e'; try discriminate Hm. by apply IH.
Qed.

Lemma discover_stops_at_other_failure_witness :
  discover ([Executed Samples.dataexch; Failed (ImportError "No module named h5py")]
              ++ Failed (ValueError "bad magic number") :: [Executed Samples.tif]) []
  = Raise (ValueError "bad magic number").
Proof.
  apply (discover_stops_at_other_failure
           [Executed Samples.dataexch; Failed (ImportError "No module named h5py")]
           [Executed Samples.tif] (ValueError "bad magic number") []).
  - repeat constructor.
  - reflexivity.
Defined.

(** ** More on stitching and loading *)

Section StitchMore.
Context {R : Type} `{!NumLib R}.
Implicit Types (A B : cube R).

(** The log of the loop over the remaining selections: one read into the
    scratch object per selection reached, without the options. *)
Lemma merge_selections_log (rd : reader R) filename : ∀ rest full temp log r log',
  merge_selections rd filename rest full temp log = (r, log') →
  ∃ n, log' = log ++ map (λ s, ReadCall TempStack (Some s) None) (take n rest) ∧
       (is_ok r = true → n = length rest).
Proof.
  induction rest as [|s rest IH]; intros full temp log r log' Hm; simpl in Hm.
  - injection Hm as <- <-. exists 0. by rewrite app_nil_r.
  - destruct (rd filename temp (Some s) None) as [r1 temp1].
    destruct r1 as [[]|e1].
    2:{ injection Hm as <- <-. exists 1. by split. }
    destruct (stitch full (absdata temp1)) as [[full1 temp_abs]|e2].
    2:{ injection Hm as <- <-. exists 1. by split. }
    destruct (IH _ _ _ _ _ Hm) as (n & -> & Hn).
    exists (S n). simpl. rewrite <- app_assoc. split; [done|].
    intros Hok. by rewrite Hn.
Qed.
End StitchMore.

(** X8: a stitch fails exactly when the two cubes differ in their slice
    count; the row and column counts never make it fail. *)
Theorem stitch_fails_only_on_slice_count {R} `{!NumLib R} (A B : cube R) :
  is_ok (stitch A B) = (nchan A =? nchan B).
Proof.
  destruct (lt_eq_lt_dec (ncol A) (ncol B)) as [[Hlt|Heq]|Hgt].
  - rewrite stitch_narrow_full by lia. unfold vstack; simpl.
    replace (ncol A + (ncol B - ncol A) =? ncol B) with true
      by (symmetry; apply Nat.eqb_eq; lia).
    simpl. by destruct (nchan A =? nchan B).
  - rewrite stitch_same_width by lia. unfold vstack. rewrite Heq, Nat.eqb_refl.
    simpl. by destruct (nchan A =? nchan B).
  - rewrite stitch_narrow_temp by lia. unfold vstack; simpl.
    replace (ncol A =? ncol B + (ncol A - ncol B)) with true
      by (symmetry; apply Nat.eqb_eq; lia).
    simpl. by destruct (nchan A =? nchan B).
Qed.

(** X9: when the new cube is the narrower one (C2 < C1) it is the one padded:
    the merged cube has shape (R1+R2, C1, E), starts with the accumulated
    rows unchanged, continues with the new cube's rows followed by columns
    of zeros, and the scratch object's cube is replaced by the padded one. *)
Theorem stitch_zero_pads_new_cube {R} `{!NumLib R} (A B : cube R) :
  cube_wf A → cube_wf B → nchan A = nchan B → ncol B < ncol A →
  ∃ M, stitch A B = Ok (M, pad_cols B (ncol A - ncol B)) ∧
       shape M = (nrow A + nrow B, ncol A, nchan A) ∧
       cube_wf M ∧
       take (nrow A) (cells M) = cells A ∧
       (∀ r k e, r < nrow B → k < ncol B → cell M (nrow A + r) k e = cell B r k e) ∧
       (∀ r k e, r < nrow B → ncol B ≤ k → k < ncol A → e < nchan A →
                 cell M (nrow A + r) k e = Some (of_Z 0)).
Proof.
  intros HA HB He Hlt.
  pose proof (stitch_narrow_temp A B Hlt) as Hst.
  rewrite vstack_ok in Hst by (simpl; lia). simpl in Hst.
  eexists. split; [exact Hst|].
  pose proof HA as [HlA HrA]. pose proof HB as [HlB HrB].
  split; [done|]. split; [exact (proj1 (stitch_wf A B _ _ HA HB Hst))|].
  split; [|split].
  - simpl. by rewrite take_app_length'.
  - intros r k e Hr Hk. unfold cell; simpl.
    destruct (cells B !! r) as [row|] eqn:Hlk; [|apply lookup_ge_None in Hlk; lia].
    rewrite lookup_app_r by lia.
    replace (nrow A + r - length (cells A)) with r by lia.
    rewrite lookup_map, Hlk. simpl.
    rewrite Forall_forall in HrB.
    destruct (HrB row) as [Hlen _]; [by eapply list_elem_of_lookup_2|].
    by rewrite lookup_app_l by lia.
  - intros r k e Hr Hk1 Hk2 Hech. unfold cell; simpl.
    destruct (cells B !! r) as [row|] eqn:Hlk; [|apply lookup_ge_None in Hlk; lia].
    rewrite lookup_app_r by lia.
    replace (nrow A + r - length (cells A)) with r by lia.
    rewrite lookup_map, Hlk. simpl.
    rewrite Forall_forall in HrB.
    destruct (HrB row) as [Hlen _]; [by eapply list_elem_of_lookup_2|].
    rewrite lookup_app_r by lia.
    rewrite lookup_replicate_2 by lia. simpl.
    apply lookup_replicate_2. lia.
Qed.

Lemma stitch_zero_pads_new_cube_witness :
  ∃ M, stitch (Cube 1 2 1 [[[8%Z]; [9%Z]]]) Samples.one_px
       = Ok (M, pad_cols Samples.one_px 1) ∧
       shape M = (2, 2, 1) ∧
       cube_wf M ∧
       take 1 (cells M) = [[[8%Z]; [9%Z]]] ∧
       (∀ r k e, r < 1 → k < 1 → cell M (1 + r) k e = cell Samples.one_px r k e) ∧
       (∀ r k e, r < 1 → 1 ≤ k → k < 2 → e < 1 → cell M (1 + r) k e = Some 0%Z).
Proof.
  refine (stitch_zero_pads_new_cube (Cube 1 2 1 [[[8%Z]; [9%Z]]]) Samples.one_px _ _ _ _).
  - split; simpl; repeat constructor.
  - split; simpl; repeat constructor.
  - reflexivity.
  - simpl. lia.
Defined.

(** X10: with a provider whose read of a selection gives the same cube
    whatever the scratch object held, and cubes of one slice count, the loop
    over the remaining selections returns a cube whose row count is the sum
    of all row counts, whose column count is the largest column count and
    whose slice count is unchanged; it is well formed when the cubes are. *)
Theorem merge_selections_shape {R} `{!NumLib R} (rd : reader R) (filename : string)
    (cube_of : selector → cube R) (rest : list selector) (full : cube R)
    (temp : stack R) (log : list read_call) :
  (∀ s t, s ∈ rest →
     ∃ t', rd filename t (Some s) None = (Ok tt, t') ∧ absdata t' = cube_of s) →
  (∀ s, s ∈ rest → nchan (cube_of s) = nchan full) →
  ∃ M log', merge_selections rd filename rest full temp log = (Ok M, log') ∧
            nrow M = nrow full + sum_list (map (λ s, nrow (cube_of s)) rest) ∧
            ncol M = foldl Nat.max (ncol full) (map (λ s, ncol (cube_of s)) rest) ∧
            nchan M = nchan full ∧
            (cube_wf full → (∀ s, s ∈ rest → cube_wf (cube_of s)) → cube_wf M).
Proof.
  revert full temp log.
  induction rest as [|s rest IH]; intros full temp log Hreads Hchan; simpl.
  - exists full, log. split; [done|]. split; [lia|]. by do 2 (split; [done|]).
  - destruct (Hreads s temp) as (t' & -> & Habs); [by left|]. rewrite Habs.
    destruct (stitch_shape full (cube_of s)) as (M1 & T1 & Hst & Hsh).
    { symmetry. apply Hchan. by left. }
    rewrite Hst. injection Hsh as Hr Hk Hch.
    destruct (IH M1 (set_absdata t' T1) (log ++ [ReadCall TempStack (Some s) None]))
      as (M & log' & Hm & HrM & HkM & HeM & HwfM).
    { intros s' t Hs'. apply Hreads. by right. }
    { intros s' Hs'. rewrite Hch. apply Hchan. by right. }
    exists M, log'. split; [done|]. split; [lia|].
    split; [by rewrite HkM, Hk|]. split; [by rewrite HeM|].
    intros Hwf Hwfs. apply HwfM.
    + refine (proj1 (stitch_wf full (cube_of s) M1 T1 Hwf _ Hst)). apply Hwfs. by left.
    + intros s' Hs'. apply Hwfs. by right.
Qed.

Lemma merge_selections_shape_witness :
  ∃ M log', merge_selections Samples.rd "/data/scan.hdf5" [(1, 0); (0, 0)]
                             Samples.one_px (Samples.new_stack "h5") []
            = (Ok M, log') ∧
            nrow M = 1 + sum_list (map (λ s, nrow (Samples.regions "/data/scan.hdf5" (Some s)))
                                       [(1, 0); (0, 0)]) ∧
            ncol M = foldl Nat.max 1
                           (map (λ s, ncol (Samples.regions "/data/scan.hdf5" (Some s)))
                                [(1, 0); (0, 0)]) ∧
            nchan M = 1 ∧
            (cube_wf Samples.one_px →
             (∀ s, s ∈ [(1, 0); (0, 0)] →
                   cube_wf (Samples.regions "/data/scan.hdf5" (Some s))) →
             cube_wf M).
Proof.
  refine (merge_selections_shape Samples.rd "/data/scan.hdf5"
            (λ s, Samples.regions "/data/scan.hdf5" (Some s))
            [(1, 0); (0, 0)] Samples.one_px (Samples.new_stack "h5") [] _ _).
  - intros s t _. eexists. split; reflexivity.
  - intros [[|n] m] _; reflexivity.
Defined.

Example merge_three_regions :
  (merge_selections Samples.rd "/data/scan.hdf5" [(1, 0); (0, 0)]
                    Samples.one_px (Samples.new_stack "h5") []).1
  = Ok (Cube 3 2 1 [[[7%Z]; [0%Z]]; [[8%Z]; [9%Z]]; [[7%Z]; [0%Z]]]).
Proof. vm_compute. reflexivity. Qed.

Section LoadMore.
Context {R : Type} `{!NumLib R}.
Variable data_stack_data : struct_handle → stack R.

Lemma populate_outcome_multi (rd : reader R) filename so s0 s1 rest json :
  ∀ r so1, rd filename so (Some s0) json = (r, so1) →
  populate data_stack_data rd filename so (Some (s0 :: s1 :: rest)) json
  = match r with
    | Raise e => LoadRun (Raise e) so1 [ReadCall StackObject (Some s0) json]
    | Ok _ =>
        match merge_selections rd filename (s1 :: rest) (absdata so1)
                (data_stack_data (data_struct so1))
                [ReadCall StackObject (Some s0) json] with
        | (Raise e, log) => LoadRun (Raise e) so1 log
        | (Ok full, log) => LoadRun (Ok tt) (store_merged so1 full) log
        end
    end.
Proof. intros r so1 Hfirst. unfold populate. by rewrite Hfirst. Qed.

Lemma load_with_failed (P : Plugin.t R) (rd : reader R) filename so selection json e :
  Plugin.read P = Some rd →
  outcome (populate data_stack_data rd filename so selection json) = Raise e →
  load_with data_stack_data P filename so selection json
  = populate data_stack_data rd filename so selection json.
Proof. intros Hrd Hout. unfold load_with. rewrite Hrd. simpl. by rewrite Hout. Qed.
End LoadMore.

(** X11: a [load] of several selections that returns has read the first
    selection into the target object with the caller's options, and every
    further selection, in order, into the scratch object without options. *)
Theorem load_reads_in_selection_order {R} `{!NumLib R}
    (data_stack_data : struct_handle → stack R) (plugins : list (Plugin.t R))
    (filename : string) (stack_object : stack R) (plugin : option (Plugin.t R))
    (P : Plugin.t R) (rd : reader R) (s0 s1 : selector) (rest : list selector)
    (json : option json_t) :
  resolve plugins filename plugin = Ok (Some P) →
  Plugin.read P = Some rd →
  outcome (load data_stack_data plugins filename stack_object plugin
                (Some (s0 :: s1 :: rest)) json) = Ok tt →
  reads (load data_stack_data plugins filename stack_object plugin
              (Some (s0 :: s1 :: rest)) json)
  = ReadCall StackObject (Some s0) json
      :: map (λ s, ReadCall TempStack (Some s) None) (s1 :: rest).
Proof.
  intros Hres Hrd. rewrite (load_resolved _ _ _ _ _ P) by done.
  destruct (rd filename stack_object (Some s0) json) as [r so1] eqn:Hfirst.
  pose proof (populate_outcome_multi data_stack_data rd filename stack_object s0 s1 rest
                json r so1 Hfirst) as Hpop.
  unfold load_with. rewrite Hrd. cbv zeta. rewrite Hpop.
  destruct r as [[]|e]; [|done].
  destruct (merge_selections rd filename (s1 :: rest) (absdata so1)
              (data_stack_data (data_struct so1)) [ReadCall StackObject (Some s0) json])
    as [[full|e] log] eqn:Hmerge; [|done].
  cbn [outcome stack_after reads].
  destruct (resample (store_merged so1 full)) as [r' so']. cbn [outcome reads].
  intros _.
  destruct (merge_selections_log _ _ _ _ _ _ _ _ Hmerge) as (n & -> & Hn).
  rewrite Hn by done. by rewrite firstn_all.
Qed.

Lemma load_reads_in_selection_order_witness :
  reads (load Samples.new_stack [Samples.nexus4] "/data/scan.hdf5" Samples.empty_stack
              None (Some [(0, 0); (1, 0)]) (Some "{}"))
  = [ReadCall StackObject (Some (0, 0)) (Some "{}"); ReadCall TempStack (Some (1, 0)) None].
Proof.
  refine (load_reads_in_selection_order Samples.new_stack [Samples.nexus4]
            "/data/scan.hdf5" Samples.empty_stack None Samples.nexus4 Samples.rd4
            (0, 0) (1, 0) [] (Some "{}") _ _ _).
  - vm_compute. reflexivity.
  - reflexivity.
  - vm_compute. reflexivity.
Defined.

(** X12: when a later read or a stitch raises, [load] raises the same
    exception and the target object is left as the first read made it: no
    merged cube is stored, the coordinates are not re-indexed and nothing
    is resampled. *)
Theorem load_failure_keeps_first_selection {R} `{!NumLib R}
    (data_stack_data : struct_handle → stack R) (plugins : list (Plugin.t R))
    (filename : string) (stack_object so1 : stack R) (plugin : option (Plugin.t R))
    (P : Plugin.t R) (rd : reader R) (s0 s1 : selector) (rest : list selector)
    (json : option json_t) (e : exn) (log : list read_call) :
  resolve plugins filename plugin = Ok (Some P) →
  Plugin.read P = Some rd →
  rd filename stack_object (Some s0) json = (Ok tt, so1) →
  merge_selections rd filename (s1 :: rest) (absdata so1)
                   (data_stack_data (data_struct so1))
                   [ReadCall StackObject (Some s0) json] = (Raise e, log) →
  load data_stack_data plugins filename stack_object plugin (Some (s0 :: s1 :: rest)) json
  = LoadRun (Raise e) so1 log.
Proof.
  intros Hres Hrd Hfirst Hmerge.
  rewrite (load_resolved _ _ _ _ _ P) by done.
  pose proof (populate_outcome_multi data_stack_data rd filename stack_object s0 s1 rest
                json (Ok tt) so1 Hfirst) as Hpop.
  rewrite Hmerge in Hpop.
  rewrite (load_with_failed _ P rd _ _ _ _ e) by (done || by rewrite Hpop).
  exact Hpop.
Qed.

Lemma load_failure_keeps_first_selection_witness :
  load Samples.new_stack [MoreSamples.uneven] "/data/scan.hdf5" Samples.empty_stack
       None (Some [(0, 0); (1, 0)]) None
  = LoadRun (Raise (ValueError "all the input array dimensions except for the concatenation axis must match exactly"))
            (Stack "h5" Samples.one_px (Arr1 []) (Arr1 []) 0 0 (Arr1 [0%Z]) (Arr1 [0%Z]) None)
            [ReadCall StackObject (Some (0, 0)) None; ReadCall TempStack (Some (1, 0)) None].
Proof.
  refine (load_failure_keeps_first_selection Samples.new_stack [MoreSamples.uneven]
            "/data/scan.hdf5" Samples.empty_stack _ None MoreSamples.uneven MoreSamples.rd
            (0, 0) (1, 0) [] None _ _ _ _ _ _).
  - vm_compute. reflexivity.
  - reflexivity.
  - reflexivity.
  - vm_compute. reflexivity.
Defined.

(** X13: an empty selection list is not "no selection": [load] raises
    IndexError at [selection[0]] before any read, and the target object is
    untouched. *)
Theorem load_empty_selection_raises {R} `{!NumLib R}
    (data_stack_data : struct_handle → stack R) (plugins : list (Plugin.t R))
    (filename : string) (stack_object : stack R) (plugin : option (Plugin.t R))
    (P : Plugin.t R) (rd : reader R) (json : option json_t) :
  resolve plugins filename plugin = Ok (Some P) →
  Plugin.read P = Some rd →
  load data_stack_data plugins filename stack_object plugin (Some []) json
  = LoadRun (Raise (IndexError "list index out of range")) stack_object [].
Proof.
  intros Hres Hrd. rewrite (load_resolved _ _ _ _ _ P) by done.
  unfold load_with. by rewrite Hrd.
Qed.

Lemma load_empty_selection_raises_witness :
  load Samples.new_stack Samples.registry "/data/scan.hdf5" Samples.empty_stack
       None (Some []) None
  = LoadRun (Raise (IndexError "list index out of range")) Samples.empty_stack [].
Proof.
  apply (load_empty_selection_raises Samples.new_stack Samples.registry "/data/scan.hdf5"
           Samples.empty_stack None Samples.nexus Samples.rd None).
  - vm_compute. reflexivity.
  - reflexivity.
Defined.

(** ** More on the resamplers *)

Section ResamplerMore.
Context {R : Type} `{!NumLib R}.
Implicit Types (c acc out : cube R) (x y : coords R).

Lemma reshape_inv {X} (l : list X) r k m :
  reshape l r k = Ok m → length m = r ∧ Forall (λ row, length row = k) m.
Proof.
  unfold reshape. destruct (length l =? r * k) eqn:He; [|done].
  apply Nat.eqb_eq in He. intros [= <-]. split; [apply chunks_length|by apply chunks_rows].
Qed.

Lemma set_slice_keeps c acc i (g : list R) m :
  cube_wf acc → shape acc = shape c →
  reshape g (nrow c) (ncol c) = Ok m →
  cube_wf (set_slice acc i m) ∧ shape (set_slice acc i m) = shape c.
Proof.
  intros Hwf Hsh Hm. injection Hsh as Hr Hk He.
  apply reshape_inv in Hm as [Hlen Hrows]. split.
  - apply set_slice_wf; [done|lia|by rewrite Hk].
  - unfold shape; simpl. by rewrite Hr, Hk, He.
Qed.

Lemma resample_shared_keeps c xd yd grid : ∀ idx acc out,
  cube_wf acc → shape acc = shape c →
  resample_shared c xd yd grid idx acc = Ok out →
  cube_wf out ∧ shape out = shape c.
Proof.
  induction idx as [|i idx IH]; intros acc out Hwf Hsh; simpl.
  - by intros [= <-].
  - destruct (coords_from_arrays xd yd) as [pts|]; simpl; [|done].
    destruct (griddata pts _ grid Nearest) as [g|]; simpl; [|done].
    destruct (reshape g (nrow c) (ncol c)) as [m|] eqn:Hm; simpl; [|done].
    destruct (set_slice_keeps c acc i g m Hwf Hsh Hm). by apply IH.
Qed.

Lemma resample_mesh_keeps c pts grid : ∀ idx acc out,
  cube_wf acc → shape acc = shape c →
  resample_mesh c pts grid idx acc = Ok out →
  cube_wf out ∧ shape out = shape c.
Proof.
  induction idx as [|i idx IH]; intros acc out Hwf Hsh; simpl.
  - by intros [= <-].
  - destruct (griddata pts _ grid Cubic) as [g|]; simpl; [|done].
    destruct (reshape g (nrow c) (ncol c)) as [m|] eqn:Hm; simpl; [|done].
    destruct (set_slice_keeps c acc i g m Hwf Hsh Hm). by apply IH.
Qed.

Lemma resample_per_slice_keeps c x y name pts : ∀ idx x_ext y_ext acc out,
  cube_wf acc → shape acc = shape c →
  resample_per_slice c x y name pts idx x_ext y_ext acc = Ok out →
  cube_wf out ∧ shape out = shape c.
Proof.
  induction idx as [|i idx IH]; intros x_ext y_ext acc out Hwf Hsh; simpl.
  - by intros [= <-].
  - destruct (extent_i x i x_ext) as [xe|]; simpl; [|done].
    destruct (extent_i y i y_ext) as [ye|]; simpl; [|done].
    destruct (local "x_min_i" xe) as [[x_lo x_hi]|]; simpl; [|done].
    destruct (local "y_min_i" ye) as [[y_lo y_hi]|]; simpl; [|done].
    destruct (local name pts) as [p|]; simpl; [|done].
    destruct (griddata p _ _ Cubic) as [g|]; simpl; [|done].
    destruct (reshape g (nrow c) (ncol c)) as [m|] eqn:Hm; simpl; [|done].
    destruct (set_slice_keeps c acc i g m Hwf Hsh Hm). by eapply IH.
Qed.

(** The per-slice loop raises as soon as a slice index has no column in a
    2-d descriptor. *)
Lemma resample_per_slice_short_x c n m rows y name pts : ∀ idx x_ext y_ext acc,
  (∃ i, i ∈ idx ∧ m ≤ i) →
  is_ok (resample_per_slice c (Arr2 n m rows) y name pts idx x_ext y_ext acc) = false.
Proof.
  induction idx as [|i idx IH]; intros x_ext y_ext acc (j & Hj & Hle).
  - by apply elem_of_nil in Hj.
  - simpl. unfold column at 1.
    destruct (i <? m) eqn:Him; [|done].
    apply Nat.ltb_lt in Him.
    apply elem_of_cons in Hj as [->|Hj]; [lia|].
    destruct (mapM _ rows) as [col|]; simpl; [|done].
    destruct (min_max col) as [xe|]; simpl; [|done].
    destruct (extent_i y i y_ext) as [ye|]; simpl; [|done].
    destruct xe as [x_lo x_hi]. simpl.
    destruct (local "y_min_i" ye) as [[y_lo y_hi]|]; simpl; [|done].
    destruct (local name pts) as [p|]; simpl; [|done].
    destruct (griddata p _ _ Cubic) as [g|]; simpl; [|done].
    destruct (reshape g (nrow c) (ncol c)) as [mm|]; simpl; [|done].
    apply IH. by exists j.
Qed.

Lemma resample_per_slice_short_y c x n m rows name pts : ∀ idx x_ext y_ext acc,
  (∃ i, i ∈ idx ∧ m ≤ i) →
  is_ok (resample_per_slice c x (Arr2 n m rows) name pts idx x_ext y_ext acc) = false.
Proof.
  induction idx as [|i idx IH]; intros x_ext y_ext acc (j & Hj & Hle).
  - by apply elem_of_nil in Hj.
  - simpl.
    destruct (extent_i x i x_ext) as [xe|]; simpl; [|done].
    unfold column at 1.
    destruct (i <? m) eqn:Him; [|done].
    apply Nat.ltb_lt in Him.
    apply elem_of_cons in Hj as [->|Hj]; [lia|].
    destruct (mapM _ rows) as [col|]; simpl; [|done].
    destruct (min_max col) as [ye|]; simpl; [|done].
    destruct (local "x_min_i" xe) as [[x_lo x_hi]|]; simpl; [|done].
    destruct ye as [y_lo y_hi]. simpl.
    destruct (local name pts) as [p|]; simpl; [|done].
    destruct (griddata p _ _ Cubic) as [g|]; simpl; [|done].
    destruct (reshape g (nrow c) (ncol c)) as [mm|]; simpl; [|done].
    apply IH. by exists j.
Qed.

Lemma shared_grid_no_coords c x y :
  no_coords x ∨ no_coords y → is_ok (shared_grid c x y) = false.
Proof.
  assert (∀ d : coords R, no_coords d → is_ok (extent d) = false) as Hext.
  { intros [v|n m rows]; simpl; intros ->; [done|].
    unfold column. by destruct (0 <? m). }
  intros [Hx|Hy]; unfold shared_grid.
  - pose proof (Hext x Hx). by destruct (extent x).
  - destruct (extent x) as [[x_lo x_hi]|]; simpl; [|done].
    pose proof (Hext y Hy). by destruct (extent y) as [[? ?]|].
Qed.
End ResamplerMore.

(** X14: whenever one of the two resamplers returns, what it returns is a
    well-formed cube of exactly the input cube's shape. *)
Theorem resamplers_keep_the_shape {R} `{!NumLib R} (c : cube R) (x y : coords R) :
  (∀ flat out, interpolate_absdata_flat c x y flat = Ok out →
               shape out = shape c ∧ cube_wf out) ∧
  (∀ out, interpolate_absdata c x y = Ok out → shape out = shape c ∧ cube_wf out).
Proof.
  split.
  - intros flat out. unfold interpolate_absdata_flat.
    destruct (shared_grid c x y) as [grid|]; simpl; [|done].
    destruct x as [xd|xn xm xrows], y as [yd|yn ym yrows];
      try (intros Hloop;
           apply resample_per_slice_keeps in Hloop as [? ?];
           [done|apply zeros_like_wf|done]).
    destruct (if flat then _ else _) as [[]|]; simpl; [|done].
    intros Hloop. apply resample_shared_keeps in Hloop as [? ?];
      [done|apply zeros_like_wf|done].
  - intros out. unfold interpolate_absdata.
    destruct (shared_grid c x y) as [grid|]; simpl; [|done].
    destruct x as [xd|xn xm xrows], y as [yd|yn ym yrows];
      try (intros Hloop;
           apply resample_per_slice_keeps in Hloop as [? ?];
           [done|apply zeros_like_wf|done]).
    intros Hloop. apply resample_mesh_keeps in Hloop as [? ?];
      [done|apply zeros_like_wf|done].
Qed.

Lemma resamplers_keep_the_shape_witness :
  shape (Cube 2 2 1 [[[7%Z]; [8%Z]]; [[0%Z]; [9%Z]]]) = (2, 2, 1) ∧
  cube_wf (Cube 2 2 1 [[[7%Z]; [8%Z]]; [[0%Z]; [9%Z]]]).
Proof.
  refine (proj1 (resamplers_keep_the_shape (Cube 2 2 1 [[[7%Z]; [0%Z]]; [[8%Z]; [9%Z]]])
                   (Arr1 [0; 1; 0; 1]%Z) (Arr1 [0; 0; 1; 1]%Z)) true _ _).
  vm_compute. reflexivity.
Defined.

(** X15: the [flat] flag only adds the check that each 1-d descriptor can
    be reshaped to the cube's (rows, columns): whenever the call with
    [flat=True] returns, the call with [flat=False] returns the same cube. *)
Theorem flat_flag_only_guards {R} `{!NumLib R} (c : cube R) (x y : coords R) :
  is_ok (interpolate_absdata_flat c x y true) = true →
  interpolate_absdata_flat c x y false = interpolate_absdata_flat c x y true.
Proof.
  unfold interpolate_absdata_flat.
  destruct (shared_grid c x y) as [grid|]; simpl; [|done].
  destruct x as [xd|xn xm xrows], y as [yd|yn ym yrows]; try done.
  destruct (reshape xd (nrow c) (ncol c)) as [xx_new|]; simpl; [|done].
  by destruct (reshape yd (nrow c) (ncol c)) as [yy_new|].
Qed.

Lemma flat_flag_only_guards_witness :
  interpolate_absdata_flat (Cube 2 2 1 [[[7%Z]; [0%Z]]; [[8%Z]; [9%Z]]])
                           (Arr1 [0; 1; 0; 1]%Z) (Arr1 [0; 0; 1; 1]%Z) false
  = interpolate_absdata_flat (Cube 2 2 1 [[[7%Z]; [0%Z]]; [[8%Z]; [9%Z]]])
                             (Arr1 [0; 1; 0; 1]%Z) (Arr1 [0; 0; 1; 1]%Z) true.
Proof.
  apply (flat_flag_only_guards (Cube 2 2 1 [[[7%Z]; [0%Z]]; [[8%Z]; [9%Z]]])
           (Arr1 [0; 1; 0; 1]%Z) (Arr1 [0; 0; 1; 1]%Z)).
  vm_compute. reflexivity.
Defined.

(** X16: [interpolate_absdata] needs both descriptors of the same
    dimension: with one 1-d and one 2-d descriptor and at least one slice
    it raises, the per-slice extent of the 1-d one never being assigned. *)
Theorem interpolate_mixed_dimensions_raise {R} `{!NumLib R} (c : cube R) (x y : coords R) :
  ndim x ≠ ndim y → 0 < nchan c →
  is_ok (interpolate_absdata c x y) = false.
Proof.
  intros Hdim Hchan. unfold interpolate_absdata.
  destruct (shared_grid c x y) as [grid|]; simpl; [|done].
  rewrite (seq_cons (nchan c)) by done.
  destruct x as [xd|xn xm xrows], y as [yd|yn ym yrows]; try done; simpl.
  - by destruct (column ym yrows 0 ≫= _).
  - destruct (column xm xrows 0 ≫= _) as [xe|]; simpl; [|done].
    by destruct (local "x_min_i" xe) as [[? ?]|].
Qed.

Lemma interpolate_mixed_dimensions_raise_witness :
  is_ok (interpolate_absdata (Cube 2 2 1 [[[1%Z]; [2%Z]]; [[3%Z]; [4%Z]]])
           (Arr1 [0; 1]%Z) (Arr2 2 1 [[0%Z]; [1%Z]])) = false.
Proof.
  apply (interpolate_mixed_dimensions_raise (Cube 2 2 1 [[[1%Z]; [2%Z]]; [[3%Z]; [4%Z]]])
           (Arr1 [0; 1]%Z) (Arr2 2 1 [[0%Z]; [1%Z]])).
  - simpl. lia.
  - simpl. lia.
Defined.

(** X17: a 2-d descriptor must have a column for every slice: with fewer
    columns than the cube has slices, [interpolate_absdata] raises. *)
Theorem interpolate_needs_a_column_per_slice {R} `{!NumLib R} (c : cube R)
    (x y : coords R) (n m : nat) (rows : list (list R)) :
  x = Arr2 n m rows ∨ y = Arr2 n m rows →
  m < nchan c →
  is_ok (interpolate_absdata c x y) = false.
Proof.
  intros Hxy Hm. unfold interpolate_absdata.
  destruct (shared_grid c x y) as [grid|]; simpl; [|done].
  assert (∃ i, i ∈ seq 0 (nchan c) ∧ m ≤ i) as Hidx.
  { exists m. split; [|done]. apply elem_of_seq. lia. }
  destruct Hxy as [->| ->].
  - destruct y; by apply resample_per_slice_short_x.
  - destruct x as [xd|xn xm xrows]; by apply resample_per_slice_short_y.
Qed.

Lemma interpolate_needs_a_column_per_slice_witness :
  is_ok (interpolate_absdata (Cube 1 1 2 [[[1%Z; 2%Z]]])
           (Arr2 1 1 [[0%Z]]) (Arr2 1 2 [[0%Z; 0%Z]])) = false.
Proof.
  apply (interpolate_needs_a_column_per_slice (Cube 1 1 2 [[[1%Z; 2%Z]]])
           (Arr2 1 1 [[0%Z]]) (Arr2 1 2 [[0%Z; 0%Z]]) 1 1 [[0%Z]]).
  - by left.
  - simpl. lia.
Defined.

(** X18: a descriptor without coordinates makes both resamplers raise, even
    for a cube without slices: the extent of the shared grid is taken
    before the loop. *)
Theorem resamplers_need_coordinates {R} `{!NumLib R} (c : cube R) (x y : coords R)
    (flat : bool) :
  no_coords x ∨ no_coords y →
  is_ok (interpolate_absdata_flat c x y flat) = false ∧
  is_ok (interpolate_absdata c x y) = false.
Proof.
  intros Hno. pose proof (shared_grid_no_coords c x y Hno) as Hgrid.
  unfold interpolate_absdata_flat, interpolate_absdata.
  by destruct (shared_grid c x y).
Qed.

Lemma resamplers_need_coordinates_witness :
  is_ok (interpolate_absdata_flat (Cube 0 0 0 []) (Arr1 ([] : list Z)) (Arr1 []) true) = false ∧
  is_ok (interpolate_absdata (Cube 0 0 0 []) (Arr1 ([] : list Z)) (Arr1 [])) = false.
Proof.
  apply (resamplers_need_coordinates (Cube 0 0 0 []) (Arr1 ([] : list Z)) (Arr1 []) true).
  by left.
Defined.

Section PerSliceGrid.
Context {R : Type} `{!NumLib R}.
Implicit Types (c acc : cube R).

End PerSliceGrid.



(** On this input the grid of the one slice is the shared grid itself, so
    every query point is a source point and the resampled slice is the
    slice. *)
Example interpolate_absdata_on_its_own_grid :
  slice_grid (Cube 2 2 1 [[[1%Z]; [2%Z]]; [[3%Z]; [4%Z]]])
             (Arr2 2 1 [[0%Z]; [1%Z]]) (Arr2 2 1 [[0%Z]; [1%Z]]) 0
  = Ok [(0, 0); (1, 0); (0, 1); (1, 1)]%Z ∧
  interpolate_absdata (Cube 2 2 1 [[[1%Z]; [2%Z]]; [[3%Z]; [4%Z]]])
                      (Arr2 2 1 [[0%Z]; [1%Z]]) (Arr2 2 1 [[0%Z]; [1%Z]])
  = Ok (Cube 2 2 1 [[[1%Z]; [2%Z]]; [[3%Z]; [4%Z]]]).
Proof. split; vm_compute; reflexivity. Qed.

(** Two slices with disjoint coordinate ranges get different grids. *)
Example slice_grids_differ :
  slice_grid (Cube 1 2 2 [[[1%Z; 5%Z]; [2%Z; 6%Z]]])
             (Arr2 2 2 [[0; 10]; [1; 12]]%Z) (Arr2 2 2 [[0; 20]; [1; 24]]%Z) 0
  = Ok [(0, 0); (0, 1)]%Z ∧
  slice_grid (Cube 1 2 2 [[[1%Z; 5%Z]; [2%Z; 6%Z]]])
             (Arr2 2 2 [[0; 10]; [1; 12]]%Z) (Arr2 2 2 [[0; 20]; [1; 24]]%Z) 1
  = Ok [(10, 20); (10, 24)]%Z.
Proof. split; vm_compute; reflexivity. Qed.

(** ** Structure inspection *)

(** X20: without an explicit plugin, [GetFileStructure] and [load] act on
    the same provider, the first registered one that lists the file's
    extension and confirms the file; when there is none,
    [GetFileStructure] returns None and [load] reads nothing. *)
Theorem GetFileStructure_dispatches_like_load {R S} `{!NumLib R}
    (structure_attr : Plugin.t R → option (string → res (option S)))
    (data_stack_data : struct_handle → stack R) (plugins : list (Plugin.t R))
    (filename : string) (stack_object : stack R)
    (selection : option (list selector)) (json : option json_t) :
  GetFileStructure structure_attr plugins filename None
  = match first_confirming plugins filename with
    | None => Ok None
    | Some P =>
        match structure_attr P with
        | None => Raise (AttributeError "GetFileStructure")
        | Some get_structure => get_structure filename
        end
    end ∧
  load data_stack_data plugins filename stack_object None selection json
  = match first_confirming plugins filename with
    | None => LoadRun (Ok tt) stack_object []
    | Some P => load_with data_stack_data P filename stack_object selection json
    end.
Proof.
  unfold GetFileStructure, load, resolve. rewrite identify_find.
  by destruct (first_confirming plugins filename).
Qed.

Example GetFileStructure_samples :
  GetFileStructure MoreSamples.structure_attr Samples.registry "/data/scan.hdf5" None
  = Ok (Some ["region0"; "region1"]) ∧
  GetFileStructure MoreSamples.structure_attr Samples.registry "/data/image.tif" None
  = Ok None ∧
  GetFileStructure MoreSamples.structure_attr Samples.registry "/data/notes.txt" None
  = Ok None ∧
  GetFileStructure MoreSamples.structure_attr Samples.registry "/data/scan.h5"
                   (Some Samples.dataexch)
  = Raise (AttributeError "GetFileStructure").
Proof. repeat split; vm_compute; reflexivity. Qed.

(** [save] has no dispatch: without a plugin it fails at the message. *)
Example save_without_plugin :
  save (R := Z) (λ _, Some (λ _ (_ : cube Z) _, Ok tt)) "/data/out.tif"
       Samples.one_px "image" None
  = Raise (AttributeError "title").
Proof. reflexivity. Qed.
